(** * nsync recipebuilder: the Docker recipe builder

    A shallow embedding of [recipebuilder/docker_recipe_builder.go]: the
    image-reference parser ([parseDockerRepoUrl], [officialRegistry],
    [parseDockerRepositoryTag], [convertDockerURI]), the metadata
    extractors ([extractExposedPorts], [extractUser]) and [Build].

    Go strings are byte sequences and are modelled by [string]; Go integers
    by [Z]; a Go call that can raise a run-time panic or hand back an
    [error] is modelled in the [outcome] monad. *)

From Stdlib Require Import ZArith Lia Bool Ascii DecimalString.
From stdpp Require Import gmap strings list fin_maps.

Local Open Scope Z_scope.

(* ================================================================== *)
(** ** Outcomes of Go calls *)

(** The package-level error values of [recipebuilder] that [Build] names,
    and errors made on the spot by [errors.New] / [fmt.Errorf].  Each
    package-level value is a distinct pointer in Go, hence a constructor
    of its own. *)
Inductive error : Type :=
| ErrDockerImageMissing
| ErrMultipleAppSources
| ErrNoDockerImage
| ErrNoLifecycleDefined
| errors_New (msg : string).

(** A call returns a value, returns a non-nil [error], or panics with an
    index or slice bound out of range. *)
Inductive outcome (A : Type) : Type :=
| Return (a : A)
| Fail (e : error)
| Panic.
Arguments Return {A} a.
Arguments Fail {A} e.
Arguments Panic {A}.

(** Sequencing: the first non-returning call ends the function. *)
#[export] Instance outcome_bind : MBind outcome := fun A B k m =>
  match m with
  | Return a => k a
  | Fail e => Fail e
  | Panic => Panic
  end.
#[export] Instance outcome_ret : MRet outcome := fun A a => Return a.

(* ================================================================== *)
(** ** The [strings] package, as far as the builder uses it *)

Module strings.

(** [len(s)] *)
Definition len (s : string) : Z := Z.of_nat (String.length s).

(** [strings.HasPrefix(s, prefix)] *)
Fixpoint HasPrefix (s pre : string) : bool :=
  match pre, s with
  | EmptyString, _ => true
  | String _ _, EmptyString => false
  | String a pre', String b s' => Ascii.eqb a b && HasPrefix s' pre'
  end.

(** [strings.Index(s, substr)]: the first position at which [substr]
    starts, or -1. *)
Fixpoint Index (s substr : string) : Z :=
  if HasPrefix s substr then 0
  else match s with
       | EmptyString => -1
       | String _ s' =>
           let i := Index s' substr in
           if i <? 0 then -1 else i + 1
       end.

(** [strings.LastIndex(s, substr)]: the last such position, or -1. *)
Fixpoint LastIndex (s substr : string) : Z :=
  match s with
  | EmptyString => if HasPrefix s substr then 0 else -1
  | String _ s' =>
      let i := LastIndex s' substr in
      if 0 <=? i then i + 1
      else if HasPrefix s substr then 0 else -1
  end.

(** [strings.Contains(s, substr)] is [Index(s, substr) >= 0]. *)
Definition Contains (s substr : string) : bool := 0 <=? Index s substr.

(** [strings.IndexRune(s, r)] for a rune below [utf8.RuneSelf], where
    it is the index of that byte. *)
Definition IndexRune (s : string) (r : ascii) : Z :=
  Index s (String r EmptyString).

(** The first [n] bytes of [s], and [s] without them. *)
Fixpoint take (n : nat) (s : string) : string :=
  match n, s with
  | S n', String a s' => String a (take n' s')
  | _, _ => EmptyString
  end.

Fixpoint drop (n : nat) (s : string) : string :=
  match n, s with
  | S n', String _ s' => drop n' s'
  | _, _ => s
  end.

(** [strings.SplitN(s, sep, n)] for a non-empty [sep] and [n >= 0]
    (genSplit): at most [n] pieces, the last one the unsplit rest. *)
Fixpoint SplitN (s sep : string) (n : nat) : list string :=
  match n with
  | O => []
  | S O => [s]
  | S n' =>
      let m := Index s sep in
      if m <? 0 then [s]
      else take (Z.to_nat m) s
             :: SplitN (drop (Z.to_nat (m + len sep)) s) sep n'
  end.

(** [strings.Replace(s, old, new, 1)] for a non-empty [old]. *)
Definition Replace1 (s old new : string) : string :=
  let m := Index s old in
  if m <? 0 then s
  else take (Z.to_nat m) s +:+ new +:+ drop (Z.to_nat (m + len old)) s.

End strings.

(** The slice expressions [s[i:]] and [s[:j]]: a bound outside
    [0 .. len(s)] panics. *)
Definition slice_from (s : string) (i : Z) : outcome string :=
  if (0 <=? i) && (i <=? strings.len s)
  then Return (strings.drop (Z.to_nat i) s) else Panic.

Definition slice_to (s : string) (j : Z) : outcome string :=
  if (0 <=? j) && (j <=? strings.len s)
  then Return (strings.take (Z.to_nat j) s) else Panic.

(** The index expression [a[i]] on a slice: out of range panics. *)
Definition index {A : Type} (a : list A) (i : nat) : outcome A :=
  match a !! i with
  | Some x => Return x
  | None => Panic
  end.

(* ================================================================== *)
(** ** Image references *)

Definition DockerScheme : string := "docker".
Definition DockerIndexServer : string := "docker.io".

Definition officialRegistry (nameParts : list string) : outcome bool :=
  if Nat.eqb (length nameParts) 1 then Return true
  else
    p0 ← index nameParts 0;
    if String.eqb p0 DockerIndexServer then Return true
    else Return (negb (strings.Contains p0 ".")
                 && negb (strings.Contains p0 ":")
                 && negb (String.eqb p0 "localhost")).

Definition parseDockerRepositoryTag (remoteName : string)
  : outcome (string * string) :=
  let n := strings.LastIndex remoteName ":" in
  if n <? 0 then Return (remoteName, "")
  else
    tag ← slice_from remoteName (n + 1);
    if negb (strings.Contains tag "/")
    then (repo ← slice_to remoteName n; Return (repo, tag))
    else Return (remoteName, "").

Definition parseDockerRepoUrl (dockerURI : string)
  : outcome (string * string * string) :=
  let nameParts := strings.SplitN dockerURI "/" 2 in
  official ← officialRegistry nameParts;
  '(indexName, remoteName) ←
     (if official : bool then
        p0 ← index nameParts 0;
        '(indexName, remoteName) ←
           (if String.eqb p0 DockerIndexServer
            then (p1 ← index nameParts 1; Return (DockerIndexServer, p1))
            else Return (EmptyString, dockerURI));
        if strings.IndexRune remoteName "/" =? -1
        then Return (indexName, "library/" +:+ remoteName)
        else Return (indexName, remoteName)
      else
        p0 ← index nameParts 0;
        p1 ← index nameParts 1;
        Return (p0, p1));
  '(remoteName, tag) ← parseDockerRepositoryTag remoteName;
  Return (indexName, remoteName, tag).

(** The fields of [net/url.URL] that the builder fills in. *)
Record URL : Type := mkURL {
  Scheme : string;
  Path : string;
  Fragment : string
}.

(** The [&url.URL{...}] value that [convertDockerURI] builds before it
    serializes it. *)
Definition dockerURL (dockerURI : string) : outcome URL :=
  if strings.Contains dockerURI "://"
  then Fail (errors_New ("docker URI [" +:+ dockerURI +:+ "] should not contain scheme"))
  else
    '(indexName, remoteName, tag) ← parseDockerRepoUrl dockerURI;
    Return {| Scheme := DockerScheme;
              Path := indexName +:+ "/" +:+ remoteName;
              Fragment := tag |}.

(* ================================================================== *)
(** ** Fixed-width conversions *)

Definition int32 (z : Z) : Z := (z + 2 ^ 31) mod 2 ^ 32 - 2 ^ 31.
Definition uint32 (z : Z) : Z := z mod 2 ^ 32.

(** [fmt.Sprintf("%d", n)] *)
Definition fmt_d (n : Z) : string := NilZero.string_of_int (Z.to_int n).

(** [time.Second], in nanoseconds. *)
Definition time_Second : Z := 1000000000.

(* ================================================================== *)
(** ** The values that [Build] reads and writes *)

(** [bbs/models]: actions, environment variables and the desired LRP.
    [Serial], [Codependent] and [Timeout] of that package only wrap their
    arguments into the action of that kind; [WrapAction] maps the nil
    interface to a nil pointer, here [None]. *)
Module models.

Record EnvironmentVariable : Type := {
  Name : string;
  Value : string
}.

Record ResourceLimits : Type := {
  Nofile : option Z
}.

#[warnings="-register-all"]
Inductive ActionInterface : Type :=
| DownloadAction (From To CacheKey User : string)
| RunAction (User Path : string) (Args : list string)
    (Env : list EnvironmentVariable) (LogSource : string)
    (Limits : option ResourceLimits)
| SerialAction (Actions : list ActionInterface)
| CodependentAction (Actions : list ActionInterface)
| ParallelAction (Actions : list ActionInterface)
| TimeoutAction (Action : ActionInterface) (Timeout : Z).

Definition Serial (actions : list ActionInterface) : ActionInterface :=
  SerialAction actions.
Definition Codependent (actions : list ActionInterface) : ActionInterface :=
  CodependentAction actions.
Definition Timeout (action : ActionInterface) (timeout : Z) : ActionInterface :=
  TimeoutAction action timeout.
Definition WrapAction (action : option ActionInterface) : option ActionInterface :=
  action.

Section LRP.
Context {SecurityGroupRule : Type}.

Record DesiredLRP : Type := {
  Privileged : bool;
  Domain : string;
  ProcessGuid : string;
  Instances : Z;
  Routes : gmap string string; (* map[string]*json.RawMessage *)
  Annotation : string;
  CpuWeight : Z;
  MemoryMb : Z;
  DiskMb : Z;
  Ports : list Z;
  RootFs : string;
  LogGuid : string;
  LogSource : string;
  MetricsGuid : string;
  EnvironmentVariables : list EnvironmentVariable;
  Setup : option ActionInterface;
  Action : option ActionInterface;
  Monitor : option ActionInterface;
  StartTimeout : Z;
  EgressRules : list SecurityGroupRule
}.
End LRP.
Arguments DesiredLRP : clear implicits.

End models.

(** [runtime-schema/cc_messages]: the request. *)
Module cc_messages.

Section Request.
Context {CCRouteInfo SecurityGroupRule : Type}.

Record DesireAppRequestFromCC : Type := {
  ProcessGuid : string;
  DropletUri : string;
  DockerImageUrl : string;
  StartCommand : string;
  ExecutionMetadata : string;
  Environment : list models.EnvironmentVariable;
  MemoryMB : Z;
  DiskMB : Z;
  FileDescriptors : Z;
  NumInstances : Z;
  RoutingInfo : CCRouteInfo;
  AllowSSH : bool;
  LogGuid : string;
  HealthCheckType : string;
  HealthCheckTimeoutInSeconds : Z;
  EgressRules : list SecurityGroupRule;
  ETag : string
}.

(** The same request with another secure-shell flag. *)
Definition with_AllowSSH (flag : bool) (r : DesireAppRequestFromCC)
  : DesireAppRequestFromCC :=
  {| ProcessGuid := ProcessGuid r; DropletUri := DropletUri r;
     DockerImageUrl := DockerImageUrl r; StartCommand := StartCommand r;
     ExecutionMetadata := ExecutionMetadata r;
     Environment := Environment r; MemoryMB := MemoryMB r;
     DiskMB := DiskMB r; FileDescriptors := FileDescriptors r;
     NumInstances := NumInstances r; RoutingInfo := RoutingInfo r;
     AllowSSH := flag; LogGuid := LogGuid r;
     HealthCheckType := HealthCheckType r;
     HealthCheckTimeoutInSeconds := HealthCheckTimeoutInSeconds r;
     EgressRules := EgressRules r; ETag := ETag r |}.
End Request.
Arguments DesireAppRequestFromCC : clear implicits.

End cc_messages.

(** [diego-ssh/routes]: the payload of the secure-shell route. *)
Module ssh_routes.
Record SSHRoute : Type := {
  ContainerPort : Z;
  PrivateKey : string;
  HostFingerprint : string
}.
End ssh_routes.

(** Modelled from the spec: the declaration of [DockerExecutionMetadata]
    is not in this file; the spec gives it a run-as-user string and an
    ordered list of exposed-port descriptors, a port number with its
    transport protocol. *)
Record ExposedPort : Type := {
  Port : Z;
  Protocol : string
}.

Record DockerExecutionMetadata : Type := {
  User : string;
  ExposedPorts : list ExposedPort
}.

(** The key pairs of the key factory, by their three accessors. *)
Record KeyPair : Type := {
  PEMEncodedPrivateKey : string;
  AuthorizedKey : string;
  Fingerprint : string
}.

(** [Build] runs against the state of the key factory, which each
    [NewKeyPair] call advances; logging is left out. *)
Definition builder (K A : Type) : Type := K -> outcome A * K.

#[export] Instance builder_bind {K} : MBind (builder K) := fun A B f m k =>
  match m k with
  | (Return a, k') => f a k'
  | (Fail e, k') => (Fail e, k')
  | (Panic, k') => (Panic, k')
  end.
#[export] Instance builder_ret {K} : MRet (builder K) := fun A a k => (Return a, k).

Definition lift {K A : Type} (o : outcome A) : builder K A := fun k => (o, k).

(** [Config]; its [KeyFactory] is the state that the [builder] monad
    threads. *)
Record Config : Type := {
  Lifecycles : gmap string string;
  FileServerURL : string
}.

Record DockerRecipeBuilder : Type := {
  config : Config
}.

(* ================================================================== *)
(** ** The builder *)

(** What the file uses and other files declare. *)
Class Platform : Type := {
  (** the types of the routing metadata, of the egress rules and of the
      state of the key factory *)
  CCRouteInfo : Type;
  SecurityGroupRule : Type;
  KeyFactory : Type;
  (** constants of the package and of the packages it imports *)
  DefaultFileDescriptorLimit : Z;
  DefaultPort : Z;
  DefaultSSHPort : Z;
  AppLogSource : string;
  LRPLogSource : string;
  AppLRPDomain : string;
  DIEGO_SSH : string;
  PortHealthCheckType : string;
  UnspecifiedHealthCheckType : string;
  (** collaborators: the serializer of [net/url], the helpers of the
      package kept in other files, the route translation (which hands
      back a non-nil map), the key factory and the JSON encoder *)
  URL_String : URL -> string;
  lifecycleDownloadURL : string -> string -> string;
  NewDockerExecutionMetadata : string -> outcome DockerExecutionMetadata;
  getParallelAction : list Z -> string -> models.ActionInterface;
  createLrpEnv :
    list models.EnvironmentVariable -> Z -> list models.EnvironmentVariable;
  CCRouteInfoToRoutes : CCRouteInfo -> list Z -> outcome (gmap string string);
  cpuWeight : Z -> Z;
  NewKeyPair : Z -> builder KeyFactory KeyPair;
  json_Marshal : ssh_routes.SSHRoute -> outcome string
}.

Section Builder.

Context `{Platform}.

Local Abbreviation Request :=
  (cc_messages.DesireAppRequestFromCC CCRouteInfo SecurityGroupRule).
Local Abbreviation DesiredLRP := (models.DesiredLRP SecurityGroupRule).

Definition extractExposedPorts (executionMetadata : DockerExecutionMetadata)
  : outcome (list Z) :=
  let exposedPort := DefaultPort in
  let exposedPorts := ExposedPorts executionMetadata in
  let ports : list Z := [] in
  let ports :=
    if Nat.eqb (length exposedPorts) 0 then ports ++ [exposedPort] else ports in
  let '(exposedPort, ports) :=
    fold_left
      (fun '(exposedPort, ports) port =>
         if String.eqb (Protocol port) "tcp"
         then (Port port, ports ++ [Port port])
         else (exposedPort, ports))
      exposedPorts (exposedPort, ports) in
  if Nat.eqb (length ports) 0
  then Fail (errors_New "No tcp ports found in image metadata")
  else Return ports.

Definition extractUser (executionMetadata : DockerExecutionMetadata)
  : outcome string :=
  if 0 <? strings.len (User executionMetadata)
  then Return (User executionMetadata)
  else Return "root".

Definition convertDockerURI (dockerURI : string) : outcome string :=
  u ← dockerURL dockerURI;
  Return (URL_String u).

Definition Build (b : DockerRecipeBuilder) (desiredApp : Request)
  : builder KeyFactory DesiredLRP :=
  let lrpGuid := cc_messages.ProcessGuid desiredApp in
  if String.eqb (cc_messages.DockerImageUrl desiredApp) ""
  then lift (Fail ErrDockerImageMissing)
  else if negb (String.eqb (cc_messages.DropletUri desiredApp) "")
          && negb (String.eqb (cc_messages.DockerImageUrl desiredApp) "")
  then lift (Fail ErrMultipleAppSources)
  else if String.eqb (cc_messages.DockerImageUrl desiredApp) ""
  then lift (Fail ErrNoDockerImage)
  else
  let lifecycle := "docker" in
  match Lifecycles (config b) !! lifecycle with
  | None => lift (Fail ErrNoLifecycleDefined)
  | Some lifecyclePath =>
  let lifecycleURL :=
    lifecycleDownloadURL lifecyclePath (FileServerURL (config b)) in
  rootFSPath ← lift (convertDockerURI (cc_messages.DockerImageUrl desiredApp));
  let privilegedContainer := false in
  let containerEnvVars : list models.EnvironmentVariable := [] in
  let numFiles :=
    if negb (cc_messages.FileDescriptors desiredApp =? 0)
    then cc_messages.FileDescriptors desiredApp
    else DefaultFileDescriptorLimit in
  executionMetadata ←
    lift (NewDockerExecutionMetadata (cc_messages.ExecutionMetadata desiredApp));
  user ← lift (extractUser executionMetadata);
  let setup : list models.ActionInterface :=
    [] ++ [models.DownloadAction lifecycleURL "/tmp/lifecycle"
             (strings.Replace1 lifecycle "/" "-" +:+ "-lifecycle") user] in
  desiredAppPorts ← lift (extractExposedPorts executionMetadata);
  let monitor : option models.ActionInterface :=
    if String.eqb (cc_messages.HealthCheckType desiredApp) PortHealthCheckType
       || String.eqb (cc_messages.HealthCheckType desiredApp)
            UnspecifiedHealthCheckType
    then Some (models.Timeout (getParallelAction desiredAppPorts user)
                 (30 * time_Second))
    else None in
  port0 ← lift (index desiredAppPorts 0);
  let actions : list models.ActionInterface :=
    [] ++ [models.RunAction user "/tmp/lifecycle/launcher"
             (["app"] ++ [cc_messages.StartCommand desiredApp;
                          cc_messages.ExecutionMetadata desiredApp])
             (createLrpEnv (cc_messages.Environment desiredApp) port0)
             AppLogSource
             (Some {| models.Nofile := Some numFiles |})] in
  desiredAppRoutingInfo ←
    lift (CCRouteInfoToRoutes (cc_messages.RoutingInfo desiredApp) desiredAppPorts);
  '(actions, desiredAppRoutingInfo, desiredAppPorts) ←
    (if cc_messages.AllowSSH desiredApp
     then
       hostKeyPair ← NewKeyPair 1024;
       userKeyPair ← NewKeyPair 1024;
       port0 ← lift (index desiredAppPorts 0);
       let actions :=
         actions ++
         [models.RunAction user "/tmp/lifecycle/diego-sshd"
            ["-address=" +:+ ("0.0.0.0:" +:+ fmt_d DefaultSSHPort);
             "-hostKey=" +:+ PEMEncodedPrivateKey hostKeyPair;
             "-authorizedKey=" +:+ AuthorizedKey userKeyPair;
             "-inheritDaemonEnv";
             "-logLevel=fatal"]
            (createLrpEnv (cc_messages.Environment desiredApp) port0)
            ""
            (Some {| models.Nofile := Some numFiles |})] in
       sshRoutePayload ←
         lift (json_Marshal
                 {| ssh_routes.ContainerPort := 2222;
                    ssh_routes.PrivateKey := PEMEncodedPrivateKey userKeyPair;
                    ssh_routes.HostFingerprint := Fingerprint hostKeyPair |});
       mret (actions,
             <[DIEGO_SSH := sshRoutePayload]> desiredAppRoutingInfo,
             desiredAppPorts ++ [DefaultSSHPort])
     else mret (actions, desiredAppRoutingInfo, desiredAppPorts));
  let setupAction := models.Serial setup in
  let actionAction := models.Codependent actions in
  mret {| models.Privileged := privilegedContainer;
          models.Domain := AppLRPDomain;
          models.ProcessGuid := lrpGuid;
          models.Instances := int32 (cc_messages.NumInstances desiredApp);
          models.Routes := desiredAppRoutingInfo;
          models.Annotation := cc_messages.ETag desiredApp;
          models.CpuWeight := cpuWeight (cc_messages.MemoryMB desiredApp);
          models.MemoryMb := int32 (cc_messages.MemoryMB desiredApp);
          models.DiskMb := int32 (cc_messages.DiskMB desiredApp);
          models.Ports := desiredAppPorts;
          models.RootFs := rootFSPath;
          models.LogGuid := cc_messages.LogGuid desiredApp;
          models.LogSource := LRPLogSource;
          models.MetricsGuid := cc_messages.LogGuid desiredApp;
          models.EnvironmentVariables := containerEnvVars;
          models.Setup := models.WrapAction (Some setupAction);
          models.Action := models.WrapAction (Some actionAction);
          models.Monitor := models.WrapAction monitor;
          models.StartTimeout :=
            uint32 (cc_messages.HealthCheckTimeoutInSeconds desiredApp);
          models.EgressRules := cc_messages.EgressRules desiredApp |}
  end.

(** The exported port extraction: decode the metadata blob of the
    request, then [extractExposedPorts]. *)
Definition ExtractExposedPorts (b : DockerRecipeBuilder) (desiredApp : Request)
  : outcome (list Z) :=
  let executionMetadata := cc_messages.ExecutionMetadata desiredApp in
  metadata ← NewDockerExecutionMetadata executionMetadata;
  extractExposedPorts metadata.

End Builder.

(** The constructor; the logger is left out. *)
Definition NewDockerRecipeBuilder (config : Config) : DockerRecipeBuilder :=
  {| config := config |}.

(* ================================================================== *)
(** ** Definitions used to state and prove the properties *)

(** [cut c s] splits [s] around its first byte [c], [rcut c s] around its
    last one; [None] when [s] has no such byte. *)
Fixpoint cut (c : ascii) (s : string) : option (string * string) :=
  match s with
  | EmptyString => None
  | String a s' =>
      if Ascii.eqb c a then Some (EmptyString, s')
      else match cut c s' with
           | Some (x, y) => Some (String a x, y)
           | None => None
           end
  end.

Fixpoint rcut (c : ascii) (s : string) : option (string * string) :=
  match s with
  | EmptyString => None
  | String a s' =>
      match rcut c s' with
      | Some (x, y) => Some (String a x, y)
      | None => if Ascii.eqb c a then Some (EmptyString, s') else None
      end
  end.

(** [strings.HasSuffix(s, suffix)]: some tail of [s] is [suffix]. *)
Fixpoint HasSuffix (s suffix : string) : bool :=
  String.eqb s suffix
  || match s with
     | EmptyString => false
     | String _ s' => HasSuffix s' suffix
     end.

(** What [parseDockerRepositoryTag] returns, on [rcut]. *)
Definition split_tag (remoteName : string) : string * string :=
  match rcut ":" remoteName with
  | Some (repo, tag) =>
      if strings.Contains tag "/" then (remoteName, EmptyString) else (repo, tag)
  | None => (remoteName, EmptyString)
  end.

(** The default namespace, put before a repository path without "/". *)
Definition library_prefix (remoteName : string) : string :=
  if strings.IndexRune remoteName "/" =? -1
  then "library/" +:+ remoteName else remoteName.

(** The last disjunct of [officialRegistry]: a first segment that is a
    plain name, not a host. *)
Definition plain_name (p0 : string) : bool :=
  negb (strings.Contains p0 ".") && negb (strings.Contains p0 ":")
  && negb (String.eqb p0 "localhost").

(** The reference path that the spec calls canonical: index, "/",
    repository, and ":" with the tag when there is a tag. *)
Definition canonical_path (ref : string * string * string) : string :=
  let '(indexName, remoteName, tag) := ref in
  indexName +:+ "/" +:+ remoteName
  +:+ (if String.eqb tag "" then "" else ":" +:+ tag).

(** Re-parsing a canonical path gives the triple it was made from, for
    every reference that parses. *)
Definition reparse_is_identity : Prop :=
  forall dockerURI ref,
    strings.Contains dockerURI "://" = false ->
    parseDockerRepoUrl dockerURI = Return ref ->
    parseDockerRepoUrl (canonical_path ref) = Return ref.

(** With an empty index name the path of the URL is the repository
    alone, and its fragment the tag. *)
Definition empty_index_path_is_repository : Prop :=
  forall dockerURI remoteName tag u,
    strings.Contains dockerURI "://" = false ->
    parseDockerRepoUrl dockerURI = Return (EmptyString, remoteName, tag) ->
    dockerURL dockerURI = Return u ->
    Path u = remoteName /\ Fragment u = tag.

(** A platform to run the builder on: the constants as the package
    declares them, a serializer for paths and fragments that need no
    escaping, a decoder for three sample blobs, a key factory that
    numbers its keys. *)
Definition sample_metadata (blob : string) : outcome DockerExecutionMetadata :=
  if String.eqb blob "{}" then
    Return {| User := ""; ExposedPorts := [] |}
  else if String.eqb blob "tcp+udp" then
    Return {| User := "web";
              ExposedPorts := [ {| Port := 8081; Protocol := "tcp" |};
                                {| Port := 53; Protocol := "udp" |};
                                {| Port := 8082; Protocol := "tcp" |} ] |}
  else if String.eqb blob "udp" then
    Return {| User := ""; ExposedPorts := [ {| Port := 53; Protocol := "udp" |} ] |}
  else Fail (errors_New "invalid character").

Definition sample_platform : Platform := {|
  CCRouteInfo := gmap string string;
  SecurityGroupRule := string;
  KeyFactory := Z;
  DefaultFileDescriptorLimit := 1024;
  DefaultPort := 8080;
  DefaultSSHPort := 2222;
  AppLogSource := "APP";
  LRPLogSource := "CELL";
  AppLRPDomain := "cf-apps";
  DIEGO_SSH := "diego-ssh";
  PortHealthCheckType := "port";
  UnspecifiedHealthCheckType := "";
  URL_String := fun u =>
    Scheme u +:+ "://" +:+ Path u
    +:+ (if String.eqb (Fragment u) "" then "" else "#" +:+ Fragment u);
  lifecycleDownloadURL := fun lifecyclePath fileServerURL =>
    fileServerURL +:+ "/v1/static/" +:+ lifecyclePath;
  NewDockerExecutionMetadata := sample_metadata;
  getParallelAction := fun ports user =>
    models.ParallelAction
      (map (fun port =>
              models.RunAction user "/tmp/lifecycle/healthcheck"
                ["-port=" +:+ fmt_d port] [] "HEALTH"
                (Some {| models.Nofile := Some 1024 |}))
         ports);
  createLrpEnv := fun env port =>
    env ++ [ {| models.Name := "PORT"; models.Value := fmt_d port |} ];
  CCRouteInfoToRoutes := fun _ _ => Return ∅;
  cpuWeight := fun memoryMB => Z.min 100 (Z.max 1 (100 * memoryMB / 8192));
  NewKeyPair := fun bits k =>
    (Return {| PEMEncodedPrivateKey := "pem-" +:+ fmt_d k;
               AuthorizedKey := "ssh-rsa-" +:+ fmt_d k;
               Fingerprint := "fp-" +:+ fmt_d k |}, k + 1);
  json_Marshal := fun r =>
    Return (fmt_d (ssh_routes.ContainerPort r) +:+ ","
            +:+ ssh_routes.PrivateKey r +:+ ","
            +:+ ssh_routes.HostFingerprint r)
|}.

Definition sample_builder : DockerRecipeBuilder :=
  {| config := {| Lifecycles := {[ "docker" := "docker_lifecycle/docker_app_lifecycle.tgz" ]};
                  FileServerURL := "http://file-server.com" |} |}.

Definition sample_request (image droplet : string) (ssh : bool) (health blob : string)
  : cc_messages.DesireAppRequestFromCC (gmap string string) string :=
  {| cc_messages.ProcessGuid := "the-app-guid-the-app-version";
     cc_messages.DropletUri := droplet;
     cc_messages.DockerImageUrl := image;
     cc_messages.StartCommand := "the-start-command";
     cc_messages.ExecutionMetadata := blob;
     cc_messages.Environment := [ {| models.Name := "foo"; models.Value := "bar" |} ];
     cc_messages.MemoryMB := 128;
     cc_messages.DiskMB := 512;
     cc_messages.FileDescriptors := 32;
     cc_messages.NumInstances := 23;
     cc_messages.RoutingInfo := ∅;
     cc_messages.AllowSSH := ssh;
     cc_messages.LogGuid := "the-log-id";
     cc_messages.HealthCheckType := health;
     cc_messages.HealthCheckTimeoutInSeconds := 123456;
     cc_messages.EgressRules := [];
     cc_messages.ETag := "etag" |}.

(** The sample platform with a key factory that gives out one key pair
    and fails from then on. *)
Definition one_key_platform : Platform := {|
  CCRouteInfo := CCRouteInfo (Platform := sample_platform);
  SecurityGroupRule := SecurityGroupRule (Platform := sample_platform);
  KeyFactory := Z;
  DefaultFileDescriptorLimit := DefaultFileDescriptorLimit (Platform := sample_platform);
  DefaultPort := DefaultPort (Platform := sample_platform);
  DefaultSSHPort := DefaultSSHPort (Platform := sample_platform);
  AppLogSource := AppLogSource (Platform := sample_platform);
  LRPLogSource := LRPLogSource (Platform := sample_platform);
  AppLRPDomain := AppLRPDomain (Platform := sample_platform);
  DIEGO_SSH := DIEGO_SSH (Platform := sample_platform);
  PortHealthCheckType := PortHealthCheckType (Platform := sample_platform);
  UnspecifiedHealthCheckType := UnspecifiedHealthCheckType (Platform := sample_platform);
  URL_String := URL_String (Platform := sample_platform);
  lifecycleDownloadURL := lifecycleDownloadURL (Platform := sample_platform);
  NewDockerExecutionMetadata := sample_metadata;
  getParallelAction := getParallelAction (Platform := sample_platform);
  createLrpEnv := createLrpEnv (Platform := sample_platform);
  CCRouteInfoToRoutes := fun _ _ => Return ∅;
  cpuWeight := cpuWeight (Platform := sample_platform);
  NewKeyPair := fun bits k =>
    if k =? 0
    then (Return {| PEMEncodedPrivateKey := "pem-0";
                    AuthorizedKey := "ssh-rsa-0";
                    Fingerprint := "fp-0" |}, k + 1)
    else (Fail (errors_New "key generation failed"), k + 1);
  json_Marshal := json_Marshal (Platform := sample_platform)
|}.

(** Two requests for the sample builder: with and without the
    secure-shell flag. *)
Definition ssh_request : cc_messages.DesireAppRequestFromCC (gmap string string) string :=
  sample_request "user/repo:tag" "" true "port" "tcp+udp".

Definition plain_request : cc_messages.DesireAppRequestFromCC (gmap string string) string :=
  sample_request "user/repo:tag" "" false "none" "{}".

(* ================================================================== *)
(** * Properties *)

(* ------------------------------------------------------------------ *)
(** ** Byte search and splitting *)

Lemma len_String a s : strings.len (String a s) = strings.len s + 1.
Proof. unfold strings.len. simpl String.length. lia. Qed.

Lemma len_nonneg s : 0 <= strings.len s.
Proof. unfold strings.len. lia. Qed.

Lemma HasPrefix_byte s c :
  strings.HasPrefix s (String c "") =
  (match s with String a _ => Ascii.eqb c a | EmptyString => false end).
Proof.
  destruct s as [|a s]; simpl; [reflexivity|].
  destruct s; apply andb_true_r.
Qed.

Lemma Index_cut c s :
  strings.Index s (String c "") =
  (match cut c s with Some (x, _) => strings.len x | None => -1 end).
Proof.
  induction s as [|a s IH]; [reflexivity|].
  change (strings.Index (String a s) (String c ""))
    with (if strings.HasPrefix (String a s) (String c "") then 0
          else let i := strings.Index s (String c "") in
               if i <? 0 then -1 else i + 1).
  rewrite HasPrefix_byte. simpl cut.
  destruct (Ascii.eqb c a); [reflexivity|].
  cbv zeta. rewrite IH.
  destruct (cut c s) as [[x y]|]; [|reflexivity].
  rewrite len_String. pose proof (len_nonneg x).
  destruct (Z.ltb_spec (strings.len x) 0); [lia | reflexivity].
Qed.

Lemma LastIndex_rcut c s :
  strings.LastIndex s (String c "") =
  (match rcut c s with Some (x, _) => strings.len x | None => -1 end).
Proof.
  induction s as [|a s IH]; [reflexivity|].
  change (strings.LastIndex (String a s) (String c ""))
    with (let i := strings.LastIndex s (String c "") in
          if 0 <=? i then i + 1
          else if strings.HasPrefix (String a s) (String c "") then 0 else -1).
  cbv zeta. rewrite IH, HasPrefix_byte. simpl rcut.
  destruct (rcut c s) as [[x y]|].
  - rewrite len_String. pose proof (len_nonneg x).
    destruct (Z.leb_spec 0 (strings.len x)); [reflexivity | lia].
  - change (0 <=? -1) with false. cbv iota.
    destruct (Ascii.eqb c a); reflexivity.
Qed.

Lemma Contains_cut c s :
  strings.Contains s (String c "") =
  (match cut c s with Some _ => true | None => false end).
Proof.
  unfold strings.Contains. rewrite Index_cut.
  destruct (cut c s) as [[x y]|]; [|reflexivity].
  pose proof (len_nonneg x). destruct (Z.leb_spec 0 (strings.len x)); [reflexivity | lia].
Qed.

Lemma cut_take_drop c s x y :
  cut c s = Some (x, y) ->
  strings.take (String.length x) s = x /\
  strings.drop (S (String.length x)) s = y.
Proof.
  revert x y. induction s as [|a s IH]; intros x y; simpl; [discriminate|].
  destruct (Ascii.eqb c a).
  - intros [= <- <-]. split; reflexivity.
  - destruct (cut c s) as [[x' y']|]; [|discriminate].
    intros [= <- <-]. destruct (IH x' y' eq_refl) as [Ht Hd].
    simpl. rewrite Ht. auto.
Qed.

Lemma rcut_take_drop c s x y :
  rcut c s = Some (x, y) ->
  strings.take (String.length x) s = x /\
  strings.drop (S (String.length x)) s = y.
Proof.
  revert x y. induction s as [|a s IH]; intros x y; simpl; [discriminate|].
  destruct (rcut c s) as [[x' y']|].
  - intros [= <- <-]. destruct (IH x' y' eq_refl) as [Ht Hd].
    simpl. rewrite Ht. auto.
  - destruct (Ascii.eqb c a); [|discriminate].
    intros [= <- <-]. split; reflexivity.
Qed.

Lemma rcut_length c s x y :
  rcut c s = Some (x, y) -> (String.length x < String.length s)%nat.
Proof.
  revert x y. induction s as [|a s IH]; intros x y; simpl; [discriminate|].
  destruct (rcut c s) as [[x' y']|].
  - intros [= <- <-]. specialize (IH x' y' eq_refl). simpl. lia.
  - destruct (Ascii.eqb c a); [|discriminate].
    intros [= <- <-]. simpl. lia.
Qed.

(** [strings.SplitN(s, sep, 2)] on a one-byte separator cuts at its first
    occurrence. *)
Lemma SplitN_cut c s :
  strings.SplitN s (String c "") 2 =
  (match cut c s with Some (x, y) => [x; y] | None => [s] end).
Proof.
  change (strings.SplitN s (String c "") 2)
    with (let m := strings.Index s (String c "") in
          if m <? 0 then [s]
          else [strings.take (Z.to_nat m) s;
                strings.drop (Z.to_nat (m + strings.len (String c ""))) s]).
  cbv zeta. rewrite Index_cut.
  destruct (cut c s) as [[x y]|] eqn:Hc; [|reflexivity].
  pose proof (len_nonneg x).
  destruct (Z.ltb_spec (strings.len x) 0); [lia|].
  destruct (cut_take_drop _ _ _ _ Hc) as [Ht Hd].
  unfold strings.len. simpl String.length.
  rewrite Nat2Z.id.
  replace (Z.to_nat (Z.of_nat (String.length x) + Z.of_nat 1))
    with (S (String.length x)) by lia.
  rewrite Ht, Hd. reflexivity.
Qed.

Lemma append_String a x y : String a x +:+ y = String a (x +:+ y).
Proof. reflexivity. Qed.

Lemma append_empty y : EmptyString +:+ y = y.
Proof. reflexivity. Qed.

Lemma append_empty_r x : x +:+ EmptyString = x.
Proof. induction x as [|a x IH]; [reflexivity|]. rewrite append_String, IH. reflexivity. Qed.

Ltac norm_append := rewrite ?append_String, ?append_empty.

Lemma cut_eq c s x y : cut c s = Some (x, y) -> s = x +:+ String c y.
Proof.
  revert x y. induction s as [|a s IH]; intros x y; simpl; [discriminate|].
  destruct (Ascii.eqb_spec c a) as [->|_].
  - intros [= <- <-]. reflexivity.
  - destruct (cut c s) as [[x' y']|]; [|discriminate].
    intros [= <- <-]. norm_append. f_equal. apply IH. reflexivity.
Qed.

Lemma rcut_eq c s x y : rcut c s = Some (x, y) -> s = x +:+ String c y.
Proof.
  revert x y. induction s as [|a s IH]; intros x y; simpl; [discriminate|].
  destruct (rcut c s) as [[x' y']|].
  - intros [= <- <-]. norm_append. f_equal. apply IH. reflexivity.
  - destruct (Ascii.eqb_spec c a) as [->|_]; [|discriminate].
    intros [= <- <-]. reflexivity.
Qed.

Lemma cut_left c s x y : cut c s = Some (x, y) -> cut c x = None.
Proof.
  revert x y. induction s as [|a s IH]; intros x y; simpl; [discriminate|].
  destruct (Ascii.eqb c a) eqn:Hca.
  - intros [= <- <-]. reflexivity.
  - destruct (cut c s) as [[x' y']|]; [|discriminate].
    intros [= <- <-]. simpl. rewrite Hca, (IH x' y' eq_refl). reflexivity.
Qed.

Lemma cut_app c x y : cut c x = None -> cut c (x +:+ String c y) = Some (x, y).
Proof.
  induction x as [|a x IH]; norm_append; simpl.
  - intros _. rewrite Ascii.eqb_refl. reflexivity.
  - destruct (Ascii.eqb c a); [discriminate|].
    destruct (cut c x) as [[x' y']|]; [discriminate|].
    intros _. rewrite IH; reflexivity.
Qed.

(* ------------------------------------------------------------------ *)
(** ** The parser, case by case *)

Lemma parseDockerRepositoryTag_split remoteName :
  parseDockerRepositoryTag remoteName = Return (split_tag remoteName).
Proof.
  unfold parseDockerRepositoryTag, split_tag. cbv zeta.
  rewrite LastIndex_rcut.
  destruct (rcut ":" remoteName) as [[x y]|] eqn:Hr; [|reflexivity].
  pose proof (len_nonneg x) as Hx.
  pose proof (rcut_length _ _ _ _ Hr) as Hlt.
  destruct (rcut_take_drop _ _ _ _ Hr) as [Ht Hd].
  destruct (Z.ltb_spec (strings.len x) 0); [lia|].
  unfold slice_from, slice_to.
  assert (strings.len x + 1 <= strings.len remoteName) by (unfold strings.len; lia).
  repeat match goal with
  | |- context [?a <=? ?b] =>
      destruct (Z.leb_spec a b); [|unfold strings.len in *; lia]
  end.
  cbn [andb mbind outcome_bind].
  replace (Z.to_nat (strings.len x + 1)) with (S (String.length x))
    by (unfold strings.len; lia).
  rewrite Hd.
  destruct (strings.Contains y "/"); cbn [negb mbind outcome_bind]; [reflexivity|].
  unfold strings.len. rewrite Nat2Z.id, Ht. reflexivity.
Qed.

Lemma parseDockerRepoUrl_cases dockerURI :
  parseDockerRepoUrl dockerURI =
  match cut "/" dockerURI with
  | None =>
      if String.eqb dockerURI DockerIndexServer then Panic
      else let '(repo, tag) := split_tag (library_prefix dockerURI) in
           Return (EmptyString, repo, tag)
  | Some (p0, p1) =>
      if String.eqb p0 DockerIndexServer then
        let '(repo, tag) := split_tag (library_prefix p1) in
        Return (DockerIndexServer, repo, tag)
      else if plain_name p0 then
        let '(repo, tag) := split_tag (library_prefix dockerURI) in
        Return (EmptyString, repo, tag)
      else
        let '(repo, tag) := split_tag p1 in Return (p0, repo, tag)
  end.
Proof.
  unfold parseDockerRepoUrl. cbv zeta. rewrite SplitN_cut.
  destruct (cut "/" dockerURI) as [[p0 p1]|].
  - unfold officialRegistry, index. cbn [length Nat.eqb lookup list_lookup mbind outcome_bind].
    fold (plain_name p0).
    destruct (String.eqb p0 DockerIndexServer) eqn:Hio;
      cbn [mbind outcome_bind]; [|destruct (plain_name p0)];
      cbn [mbind outcome_bind lookup list_lookup]; rewrite ?Hio;
      cbn [mbind outcome_bind];
      fold (library_prefix p1); fold (library_prefix dockerURI);
      unfold library_prefix;
      repeat match goal with
      | |- context [if ?b then Return ?x else Return ?y] =>
          change (if b then Return x else Return y)
            with (if b then Return x else Return y); destruct b
      end;
      cbn [mbind outcome_bind];
      rewrite parseDockerRepositoryTag_split; cbn [mbind outcome_bind];
      destruct (split_tag _); reflexivity.
  - unfold officialRegistry, index. cbn [length Nat.eqb lookup list_lookup mbind outcome_bind].
    destruct (String.eqb dockerURI DockerIndexServer); cbn [mbind outcome_bind];
      [reflexivity|].
    unfold library_prefix. destruct (_ =? -1); cbn [mbind outcome_bind];
      rewrite parseDockerRepositoryTag_split; cbn [mbind outcome_bind];
      destruct (split_tag _); reflexivity.
Qed.

(* ------------------------------------------------------------------ *)
(** ** Image references *)

(** C1. Parsing "ubuntu" gives index "", repository "library/ubuntu" and
    tag ""; parsing "myregistry.com:5000/foo/bar:1.0" gives index
    "myregistry.com:5000", repository "foo/bar" and tag "1.0"; parsing
    "docker.io/library/nginx" gives index "docker.io", repository
    "library/nginx" and tag "". *)
Theorem parseDockerRepoUrl_test_vectors :
  parseDockerRepoUrl "ubuntu" = Return ("", "library/ubuntu", "") /\
  parseDockerRepoUrl "myregistry.com:5000/foo/bar:1.0"
    = Return ("myregistry.com:5000", "foo/bar", "1.0") /\
  parseDockerRepoUrl "docker.io/library/nginx"
    = Return ("docker.io", "library/nginx", "").
Proof. repeat split; reflexivity. Qed.

(** The parser panics on exactly one input: the default index hostname
    alone, where [nameParts[1]] is read from a one-element slice. *)
Lemma parseDockerRepoUrl_panics_iff dockerURI :
  parseDockerRepoUrl dockerURI = Panic <-> dockerURI = DockerIndexServer.
Proof.
  rewrite parseDockerRepoUrl_cases. split.
  - destruct (cut "/" dockerURI) as [[p0 p1]|].
    + destruct (String.eqb p0 DockerIndexServer); [|destruct (plain_name p0)];
        destruct (split_tag _); discriminate.
    + destruct (String.eqb_spec dockerURI DockerIndexServer); [done|].
      destruct (split_tag _); discriminate.
  - intros ->. reflexivity.
Qed.

(** No call of the parser returns an error. *)
Lemma parseDockerRepoUrl_never_fails dockerURI e :
  parseDockerRepoUrl dockerURI <> Fail e.
Proof.
  rewrite parseDockerRepoUrl_cases.
  destruct (cut "/" dockerURI) as [[p0 p1]|].
  - destruct (String.eqb p0 DockerIndexServer); [|destruct (plain_name p0)];
      destruct (split_tag _); discriminate.
  - destruct (String.eqb dockerURI DockerIndexServer); [discriminate|].
    destruct (split_tag _); discriminate.
Qed.

(** C8, at the failing input. "docker.io" contains no "://", its split on
    "/" has one element, [officialRegistry] accepts it, and the read of
    [nameParts[1]] that follows is out of range: the parser, the URL
    construction, [convertDockerURI] on any platform and [Build] on a
    request for that image all panic instead of returning. *)
Theorem convertDockerURI_docker_io_panics :
  strings.Contains "docker.io" "://" = false /\
  strings.SplitN "docker.io" "/" 2 = ["docker.io"] /\
  officialRegistry ["docker.io"] = Return true /\
  index ["docker.io"] 1 = Panic /\
  parseDockerRepoUrl "docker.io" = Panic /\
  dockerURL "docker.io" = Panic /\
  (forall P : Platform, convertDockerURI "docker.io" = Panic) /\
  Build (H := sample_platform) sample_builder
    (sample_request "docker.io" "" false "port" "{}") 0
  = (Panic, 0).
Proof. repeat split; reflexivity. Qed.

(** C3 as stated fails: "ubuntu" parses with an empty index name, and the
    path of its URL is "/library/ubuntu", not "library/ubuntu". *)
Lemma empty_index_path_keeps_separator :
  ~ empty_index_path_is_repository.
Proof.
  intros Hclaim.
  destruct (Hclaim "ubuntu" "library/ubuntu" ""
              {| Scheme := "docker"; Path := "/library/ubuntu"; Fragment := "" |}
              eq_refl eq_refl eq_refl) as [Hpath _].
  discriminate Hpath.
Qed.

(** C3, amended. For every scheme-free reference whose parsed index name
    is empty, the URL built by normalization has the fixed scheme, the
    path "/" followed by the repository path (the separator is kept), and
    the tag as its fragment (empty when the tag is empty). *)
Theorem empty_index_url dockerURI remoteName tag :
  strings.Contains dockerURI "://" = false ->
  parseDockerRepoUrl dockerURI = Return (EmptyString, remoteName, tag) ->
  exists u,
    dockerURL dockerURI = Return u /\
    (forall P : Platform, convertDockerURI dockerURI = Return (URL_String u)) /\
    Scheme u = DockerScheme /\
    Path u = "/" +:+ remoteName /\
    Fragment u = tag.
Proof.
  intros Hscheme Hparse.
  eexists. unfold convertDockerURI, dockerURL.
  rewrite Hscheme, Hparse. cbn [mbind outcome_bind].
  repeat split; reflexivity.
Qed.

Lemma empty_index_url_witness :
  exists u,
    dockerURL "ubuntu" = Return u /\
    (forall P : Platform, convertDockerURI "ubuntu" = Return (URL_String u)) /\
    Scheme u = DockerScheme /\
    Path u = "/" +:+ "library/ubuntu" /\
    Fragment u = "".
Proof.
  apply (empty_index_url "ubuntu" "library/ubuntu" ""); reflexivity.
Defined.

(* ------------------------------------------------------------------ *)
(** ** Re-parsing a canonical path *)

Lemma HasSuffix_tail x y suffix :
  HasSuffix (x +:+ y) suffix = false -> HasSuffix y suffix = false.
Proof.
  induction x as [|a x IH]; norm_append; [done|].
  simpl. intros [_ Hx]%orb_false_elim. auto.
Qed.

Lemma HasSuffix_last x c : HasSuffix (x +:+ String c "") (String c "") = true.
Proof.
  induction x as [|a x IH]; norm_append; simpl.
  - rewrite Ascii.eqb_refl. reflexivity.
  - rewrite IH. apply orb_true_r.
Qed.

Lemma library_prefix_cut p :
  exists x y, cut "/" (library_prefix p) = Some (x, y).
Proof.
  unfold library_prefix, strings.IndexRune. rewrite Index_cut.
  destruct (cut "/" p) as [[x y]|] eqn:Hc.
  - pose proof (len_nonneg x).
    destruct (Z.eqb_spec (strings.len x) (-1)); [lia|]. eauto.
  - change (-1 =? -1) with true. cbv iota. norm_append. simpl. eauto.
Qed.

Lemma library_prefix_suffix p :
  HasSuffix p ":" = false -> HasSuffix (library_prefix p) ":" = false.
Proof.
  intros Hp. unfold library_prefix.
  destruct (_ =? -1); [|assumption].
  norm_append. simpl. exact Hp.
Qed.

(** Unless the name ends in ":", the two halves that [split_tag] returns
    put the name together again. *)
Lemma split_tag_rebuild m repo tag :
  HasSuffix m ":" = false ->
  split_tag m = (repo, tag) ->
  repo +:+ (if String.eqb tag "" then "" else ":" +:+ tag) = m.
Proof.
  intros Hsuf. unfold split_tag.
  destruct (rcut ":" m) as [[x y]|] eqn:Hr.
  - destruct (strings.Contains y "/").
    + intros [= <- <-]. apply append_empty_r.
    + intros [= <- <-]. apply rcut_eq in Hr. subst m.
      destruct y as [|b y]; [|reflexivity].
      rewrite HasSuffix_last in Hsuf. discriminate.
  - intros [= <- <-]. apply append_empty_r.
Qed.

(** C2 as stated fails: "ubuntu" parses to an empty index name, its
    canonical path is "/library/ubuntu", and that path parses to the
    repository "/library/ubuntu". *)
Lemma reparse_changes_ubuntu : ~ reparse_is_identity.
Proof.
  intros Hclaim.
  specialize (Hclaim "ubuntu" ("", "library/ubuntu", "") eq_refl eq_refl).
  discriminate Hclaim.
Qed.

(** A reference that ends in ":" can lose a colon on the way as well: the
    empty tag is dropped, and what was part of the repository becomes
    the tag. *)
Example reparse_changes_trailing_colon :
  parseDockerRepoUrl "docker.io/a:b:" = Return ("docker.io", "library/a:b", "") /\
  canonical_path ("docker.io", "library/a:b", "") = "docker.io/library/a:b" /\
  parseDockerRepoUrl "docker.io/library/a:b" = Return ("docker.io", "library/a", "b").
Proof. repeat split; reflexivity. Qed.

Lemma length_append x y :
  String.length (x +:+ y) = (String.length x + String.length y)%nat.
Proof.
  induction x as [|a x IH]; norm_append; [reflexivity|].
  simpl. rewrite IH. reflexivity.
Qed.

Lemma cut_append c x y :
  cut c (x +:+ y) =
  match cut c x with
  | Some (a, b) => Some (a, b +:+ y)
  | None => match cut c y with
            | Some (a, b) => Some (x +:+ a, b)
            | None => None
            end
  end.
Proof.
  induction x as [|a x IH]; norm_append.
  - simpl. destruct (cut c y) as [[u v]|]; reflexivity.
  - simpl. destruct (Ascii.eqb c a); [reflexivity|].
    rewrite IH. destruct (cut c x) as [[u v]|]; [reflexivity|].
    destruct (cut c y) as [[u v]|]; reflexivity.
Qed.

Lemma library_prefix_id z x y :
  cut "/" z = Some (x, y) -> library_prefix z = z.
Proof.
  intros Hc. unfold library_prefix, strings.IndexRune.
  rewrite Index_cut, Hc. pose proof (len_nonneg x).
  destruct (Z.eqb_spec (strings.len x) (-1)); [lia | reflexivity].
Qed.

(** The repository that [split_tag] returns keeps a "/" of the name. *)
Lemma split_tag_keeps_slash m x y repo tag :
  cut "/" m = Some (x, y) ->
  split_tag m = (repo, tag) ->
  exists x' y', cut "/" repo = Some (x', y').
Proof.
  intros Hc. unfold split_tag.
  destruct (rcut ":" m) as [[u v]|] eqn:Hr; [|intros [= <- _]; eauto].
  destruct (strings.Contains v "/") eqn:Hv; [intros [= <- _]; eauto|].
  intros [= <- <-]. apply rcut_eq in Hr. subst m.
  rewrite cut_append in Hc.
  destruct (cut "/" u) as [[a b]|]; [eauto|].
  rewrite Contains_cut in Hv. simpl in Hc.
  destruct (cut "/" v) as [[a b]|]; discriminate.
Qed.

(** The tag that [split_tag] returns, when there is one, was cut off
    after the last ":". *)
Lemma split_tag_tagged m repo tag :
  split_tag m = (repo, tag) -> tag <> EmptyString ->
  m = repo +:+ String ":" tag.
Proof.
  unfold split_tag.
  destruct (rcut ":" m) as [[u v]|] eqn:Hr; [|intros [= _ <-]; done].
  destruct (strings.Contains v "/"); [intros [= _ <-]; done|].
  intros [= <- <-] _. apply rcut_eq. exact Hr.
Qed.

(** How a reference with a non-empty index name was parsed. *)
Lemma parse_with_index dockerURI indexName remoteName tag :
  parseDockerRepoUrl dockerURI = Return (indexName, remoteName, tag) ->
  indexName <> EmptyString ->
  exists p1 m,
    cut "/" dockerURI = Some (indexName, p1) /\
    split_tag m = (remoteName, tag) /\
    (String.eqb indexName DockerIndexServer = true /\ m = library_prefix p1 \/
     String.eqb indexName DockerIndexServer = false /\
     plain_name indexName = false /\ m = p1).
Proof.
  intros Hparse Hindex. rewrite parseDockerRepoUrl_cases in Hparse.
  destruct (cut "/" dockerURI) as [[p0 p1]|] eqn:Hcut; cycle 1.
  { destruct (String.eqb dockerURI DockerIndexServer); [discriminate|].
    destruct (split_tag _). injection Hparse as <- _ _. done. }
  destruct (String.eqb p0 DockerIndexServer) eqn:Hio.
  - destruct (split_tag (library_prefix p1)) as [repo t] eqn:Hst.
    injection Hparse as <- <- <-. apply String.eqb_eq in Hio as Hio'.
    exists p1, (library_prefix p1). rewrite <- Hio' at 1. auto.
  - destruct (plain_name p0) eqn:Hplain.
    { destruct (split_tag _). injection Hparse as <- _ _. done. }
    destruct (split_tag p1) as [repo t] eqn:Hst.
    injection Hparse as <- <- <-. exists p1, p1. auto 6.
Qed.

(** The ":" and tag that [canonical_path] appends. *)
Local Abbreviation tag_suffix tag :=
  (if String.eqb tag "" then EmptyString else ":" +:+ tag).

(** Re-parsing the canonical path of a parse with a non-empty index name
    gives the same index name and splits the tag off the repository and
    tag put together. *)
Lemma reparse_with_index dockerURI indexName remoteName tag :
  parseDockerRepoUrl dockerURI = Return (indexName, remoteName, tag) ->
  indexName <> EmptyString ->
  parseDockerRepoUrl (canonical_path (indexName, remoteName, tag)) =
  Return (let '(repo, t) := split_tag (remoteName +:+ tag_suffix tag) in
          (indexName, repo, t)).
Proof.
  intros Hparse Hindex.
  destruct (parse_with_index _ _ _ _ Hparse Hindex)
    as (p1 & m & Hcut & Hst & Hcase).
  pose proof (cut_left _ _ _ _ Hcut) as Hi0.
  unfold canonical_path.
  change ("/" +:+ remoteName +:+ tag_suffix tag)
    with (String "/" (remoteName +:+ tag_suffix tag)).
  rewrite parseDockerRepoUrl_cases, (cut_app _ _ _ Hi0).
  destruct Hcase as [[Hio ->] | (Hio & Hplain & ->)]; rewrite Hio.
  - destruct (library_prefix_cut p1) as (x & y & Hlib).
    destruct (split_tag_keeps_slash _ _ _ _ _ Hlib Hst) as (x' & y' & Hrepo).
    rewrite (library_prefix_id _ x' (y' +:+ tag_suffix tag))
      by (rewrite cut_append, Hrepo; reflexivity).
    apply String.eqb_eq in Hio. rewrite Hio.
    destruct (split_tag (remoteName +:+ _)). reflexivity.
  - rewrite Hplain. destruct (split_tag (remoteName +:+ _)). reflexivity.
Qed.

Lemma slash_shift r : String "/" r <> r +:+ ":".
Proof.
  induction r as [|a r IH]; norm_append; [discriminate|].
  intros [= <- Hr]. apply IH. exact Hr.
Qed.

(** With an empty index name the re-parse never gives the triple back:
    its repository starts with the "/" of the path. *)
Lemma reparse_empty_index remoteName tag :
  parseDockerRepoUrl (canonical_path (EmptyString, remoteName, tag))
  <> Return (EmptyString, remoteName, tag).
Proof.
  unfold canonical_path.
  change ("" +:+ "/" +:+ remoteName +:+ tag_suffix tag)
    with (String "/" (remoteName +:+ tag_suffix tag)).
  rewrite parseDockerRepoUrl_cases.
  change (cut "/" (String "/" (remoteName +:+ tag_suffix tag)))
    with (Some (EmptyString, remoteName +:+ tag_suffix tag)).
  cbv beta iota.
  change (String.eqb "" DockerIndexServer) with false.
  change (plain_name "") with true. cbv iota.
  rewrite (library_prefix_id _ "" (remoteName +:+ tag_suffix tag)) by reflexivity.
  unfold split_tag.
  assert (Hlen : String "/" (remoteName +:+ tag_suffix tag) <> remoteName).
  { intros Heq%(f_equal String.length). simpl in Heq.
    rewrite length_append in Heq. lia. }
  destruct (rcut ":" _) as [[x y]|] eqn:Hr; [|intros [= Heq _]; done].
  destruct (strings.Contains y "/"); [intros [= Heq _]; done|].
  intros [= -> ->]. apply rcut_eq in Hr.
  destruct tag as [|c tag].
  - change (tag_suffix "") with EmptyString in Hr.
    rewrite append_empty_r in Hr. exact (slash_shift _ Hr).
  - change (tag_suffix (String c tag)) with (String ":" (String c tag)) in Hr.
    apply (f_equal String.length) in Hr. simpl in Hr. lia.
Qed.

(** C2, amended. For every reference string that parses, re-parsing the
    canonical path index"/"repository, with ":"tag when the tag is
    non-empty, yields the triple of the first parse exactly when the
    index name is non-empty and either the tag is non-empty or the
    repository has no tag of its own to split off. *)
Theorem reparse_canonical_path dockerURI indexName remoteName tag :
  parseDockerRepoUrl dockerURI = Return (indexName, remoteName, tag) ->
  (parseDockerRepoUrl (canonical_path (indexName, remoteName, tag))
   = Return (indexName, remoteName, tag)
   <->
   indexName <> EmptyString /\
   (tag <> EmptyString \/
    parseDockerRepositoryTag remoteName = Return (remoteName, EmptyString))).
Proof.
  intros Hparse. rewrite parseDockerRepositoryTag_split. split.
  - intros Hre.
    assert (Hindex : indexName <> EmptyString).
    { intros ->. exact (reparse_empty_index _ _ Hre). }
    split; [exact Hindex|].
    rewrite (reparse_with_index _ _ _ _ Hparse Hindex) in Hre.
    destruct tag as [|c tag]; [right | left; discriminate].
    change (tag_suffix "") with EmptyString in Hre.
    rewrite append_empty_r in Hre.
    destruct (split_tag remoteName) as [repo t].
    injection Hre as -> ->. reflexivity.
  - intros [Hindex Htag].
    rewrite (reparse_with_index _ _ _ _ Hparse Hindex).
    destruct tag as [|c tag].
    + destruct Htag as [Htag|Htag]; [done|]. injection Htag as Htag.
      change (tag_suffix "") with EmptyString.
      rewrite append_empty_r, Htag. reflexivity.
    + destruct (parse_with_index _ _ _ _ Hparse Hindex)
        as (p1 & m & _ & Hst & _).
      change (tag_suffix (String c tag)) with (String ":" (String c tag)).
      rewrite <- (split_tag_tagged _ _ _ Hst) by discriminate.
      rewrite Hst. reflexivity.
Qed.

(** In particular the re-parse gives the triple back for a reference
    with a non-empty index name that does not end in ":". *)
Corollary reparse_no_trailing_colon dockerURI indexName remoteName tag :
  parseDockerRepoUrl dockerURI = Return (indexName, remoteName, tag) ->
  indexName <> EmptyString ->
  HasSuffix dockerURI ":" = false ->
  parseDockerRepoUrl (canonical_path (indexName, remoteName, tag))
  = Return (indexName, remoteName, tag).
Proof.
  intros Hparse Hindex Hsuf.
  apply (reparse_canonical_path _ _ _ _ Hparse). split; [exact Hindex|].
  destruct tag as [|c tag]; [right | left; discriminate].
  destruct (parse_with_index _ _ _ _ Hparse Hindex)
    as (p1 & m & Hcut & Hst & Hcase).
  assert (Hp1 : HasSuffix p1 ":" = false).
  { rewrite (cut_eq _ _ _ _ Hcut) in Hsuf. apply HasSuffix_tail in Hsuf.
    simpl in Hsuf. exact Hsuf. }
  assert (Hm : HasSuffix m ":" = false).
  { destruct Hcase as [[_ ->] | (_ & _ & ->)];
      [apply library_prefix_suffix|]; exact Hp1. }
  pose proof (split_tag_rebuild _ _ _ Hm Hst) as Hre.
  change (String.eqb "" "") with true in Hre. cbv iota in Hre.
  rewrite append_empty_r in Hre. subst m.
  rewrite parseDockerRepositoryTag_split, Hst. reflexivity.
Qed.

Lemma reparse_canonical_path_witness :
  parseDockerRepoUrl
    (canonical_path ("myregistry.com:5000", "foo/bar", "1.0"))
  = Return ("myregistry.com:5000", "foo/bar", "1.0")
  <->
  "myregistry.com:5000" <> EmptyString /\
  ("1.0" <> EmptyString \/
   parseDockerRepositoryTag "foo/bar" = Return ("foo/bar", EmptyString)).
Proof.
  apply (reparse_canonical_path "myregistry.com:5000/foo/bar:1.0").
  reflexivity.
Defined.

(* ------------------------------------------------------------------ *)
(** ** Exposed ports *)

Section Ports.

Context `{Platform}.

(** The declared ports that use tcp, in declaration order. *)
Local Abbreviation tcp_ports exposedPorts :=
  (map Port (List.filter (fun port => String.eqb (Protocol port) "tcp") exposedPorts)).

(** The loop of [extractExposedPorts] appends the tcp ports, in order, to
    what it started from. *)
Lemma collect_tcp_ports exposedPorts exposedPort (ports : list Z) :
  snd (fold_left
         (fun '(exposedPort, ports) port =>
            if String.eqb (Protocol port) "tcp"
            then (Port port, ports ++ [Port port])
            else (exposedPort, ports))
         exposedPorts (exposedPort, ports))
  = ports ++ tcp_ports exposedPorts.
Proof.
  revert exposedPort ports.
  induction exposedPorts as [|port rest IH]; intros exposedPort ports; simpl.
  - rewrite app_nil_r. reflexivity.
  - destruct (String.eqb (Protocol port) "tcp"); rewrite IH; [|reflexivity].
    simpl. rewrite <- app_assoc. reflexivity.
Qed.

(** C4. (1) Metadata without declared ports gives the one-element list of
    the default port; (2) metadata with declared ports gives exactly the
    declared tcp ports, in declaration order, when there is one; (3) when
    ports are declared and none is tcp, extraction fails with the
    no-tcp-ports error; hence every list that extraction returns is
    non-empty. *)
Theorem extractExposedPorts_spec (executionMetadata : DockerExecutionMetadata) :
  (ExposedPorts executionMetadata = [] ->
   extractExposedPorts executionMetadata = Return [DefaultPort]) /\
  (ExposedPorts executionMetadata <> [] ->
   tcp_ports (ExposedPorts executionMetadata) <> [] ->
   extractExposedPorts executionMetadata
   = Return (tcp_ports (ExposedPorts executionMetadata))) /\
  (ExposedPorts executionMetadata <> [] ->
   tcp_ports (ExposedPorts executionMetadata) = [] ->
   extractExposedPorts executionMetadata
   = Fail (errors_New "No tcp ports found in image metadata")) /\
  (forall ports,
   extractExposedPorts executionMetadata = Return ports -> ports <> []).
Proof.
  unfold extractExposedPorts. cbv zeta.
  destruct (ExposedPorts executionMetadata) as [|port rest] eqn:Hdecl.
  - simpl. repeat split; try done. intros ports [= <-]. done.
  - set (loop := fold_left _ _ _).
    assert (Hloop : snd loop = tcp_ports (port :: rest))
      by (subst loop; apply (collect_tcp_ports (port :: rest) DefaultPort [])).
    destruct loop as [exposedPort ports]. cbn [snd] in Hloop. subst ports.
    change (Nat.eqb (length (port :: rest)) 0) with false in *.
    split; [done|].
    destruct (tcp_ports (port :: rest)) as [|p ps]; simpl.
    + repeat split; try done.
    + repeat split; try done. intros ports [= <-]. done.
Qed.

End Ports.

Lemma extractExposedPorts_spec_witness :
  extractExposedPorts (H := sample_platform) {| User := ""; ExposedPorts := [] |}
  = Return [8080] /\
  extractExposedPorts (H := sample_platform)
    {| User := "web";
       ExposedPorts := [ {| Port := 8081; Protocol := "tcp" |};
                         {| Port := 53; Protocol := "udp" |};
                         {| Port := 8082; Protocol := "tcp" |} ] |}
  = Return [8081; 8082] /\
  extractExposedPorts (H := sample_platform)
    {| User := ""; ExposedPorts := [ {| Port := 53; Protocol := "udp" |} ] |}
  = Fail (errors_New "No tcp ports found in image metadata") /\
  [8081; 8082] <> @nil Z.
Proof.
  split; [|split; [|split]].
  - apply (extractExposedPorts_spec (H := sample_platform)
             {| User := ""; ExposedPorts := [] |}). reflexivity.
  - apply (extractExposedPorts_spec (H := sample_platform)
             {| User := "web";
                ExposedPorts := [ {| Port := 8081; Protocol := "tcp" |};
                                  {| Port := 53; Protocol := "udp" |};
                                  {| Port := 8082; Protocol := "tcp" |} ] |});
      discriminate.
  - apply (extractExposedPorts_spec (H := sample_platform)
             {| User := ""; ExposedPorts := [ {| Port := 53; Protocol := "udp" |} ] |});
      [discriminate | reflexivity].
  - apply (extractExposedPorts_spec (H := sample_platform)
             {| User := "web";
                ExposedPorts := [ {| Port := 8081; Protocol := "tcp" |};
                                  {| Port := 53; Protocol := "udp" |};
                                  {| Port := 8082; Protocol := "tcp" |} ] |}).
    reflexivity.
Defined.

(* ------------------------------------------------------------------ *)
(** ** Stepping through [Build] *)

Lemma bind_lift_Return {K A B} (o : outcome A) (f : A -> builder K B) k b k' :
  (lift o ≫= f) k = (Return b, k') ->
  exists a, o = Return a /\ f a k = (Return b, k').
Proof.
  unfold mbind, builder_bind, lift.
  destruct o as [a| |]; [eauto | discriminate..].
Qed.

Lemma bind_Return {K A B} (m : builder K A) (f : A -> builder K B) k b k' :
  (m ≫= f) k = (Return b, k') ->
  exists a k1, m k = (Return a, k1) /\ f a k1 = (Return b, k').
Proof.
  unfold mbind, builder_bind.
  destruct (m k) as [[a| |] k1]; [eauto | discriminate..].
Qed.

Lemma bind_lift_Fail {K A B} (o : outcome A) (f : A -> builder K B) k e k' :
  (lift o ≫= f) k = (Fail e, k') ->
  o = Fail e \/ exists a, o = Return a /\ f a k = (Fail e, k').
Proof.
  unfold mbind, builder_bind, lift.
  destruct o as [a| |]; [eauto | intros [= -> _]; auto | discriminate].
Qed.

Lemma bind_Fail {K A B} (m : builder K A) (f : A -> builder K B) k e k' :
  (m ≫= f) k = (Fail e, k') ->
  (m k).1 = Fail e \/ exists a k1, m k = (Return a, k1) /\ f a k1 = (Fail e, k').
Proof.
  unfold mbind, builder_bind.
  destruct (m k) as [[a| |] k1]; [eauto | intros [= -> _]; auto | discriminate].
Qed.

(** Takes the hypotheses [m k = (Return b, k')] on chains of binds
    apart, one equation per call. *)
Ltac build_inv :=
  repeat match goal with
  | E : mbind _ _ _ = (Return _, _) |- _ =>
      first [ apply bind_lift_Return in E as (? & ? & E)
            | apply bind_Return in E as (? & ? & ? & E) ]
  | E : Return _ = Return ?a |- _ => is_var a; injection E as <-
  | E : _ = (Return ?a, _) |- _ =>
      is_var a; progress cbv beta iota delta [mret builder_ret] in E;
      injection E as <- <-
  | E1 : ?o = Return _, E2 : ?o = Return _ |- _ =>
      rewrite E1 in E2; injection E2 as <-
  end.

Section BuildFacts.

Context `{Platform}.

Local Abbreviation Request :=
  (cc_messages.DesireAppRequestFromCC CCRouteInfo SecurityGroupRule).

(** What a successful [Build] went through, and the parts of its result
    that the theorems below are about. *)
Lemma Build_success b (req : Request) k lrp k' :
  Build b req k = (Return lrp, k') ->
  exists lifecyclePath rootFSPath md user ports port0 routes,
    cc_messages.DockerImageUrl req <> "" /\
    cc_messages.DropletUri req = "" /\
    Lifecycles (config b) !! "docker" = Some lifecyclePath /\
    convertDockerURI (cc_messages.DockerImageUrl req) = Return rootFSPath /\
    NewDockerExecutionMetadata (cc_messages.ExecutionMetadata req) = Return md /\
    extractUser md = Return user /\
    extractExposedPorts md = Return ports /\
    index ports 0 = Return port0 /\
    CCRouteInfoToRoutes (cc_messages.RoutingInfo req) ports = Return routes /\
    models.Privileged lrp = false /\
    models.EnvironmentVariables lrp = [] /\
    models.Monitor lrp =
      (if String.eqb (cc_messages.HealthCheckType req) PortHealthCheckType
          || String.eqb (cc_messages.HealthCheckType req) UnspecifiedHealthCheckType
       then Some (models.TimeoutAction (getParallelAction ports user)
                    (30 * time_Second))
       else None) /\
    let limits :=
      Some {| models.Nofile :=
                Some (if negb (cc_messages.FileDescriptors req =? 0)
                      then cc_messages.FileDescriptors req
                      else DefaultFileDescriptorLimit) |} in
    let env := createLrpEnv (cc_messages.Environment req) port0 in
    let launcher :=
      models.RunAction user "/tmp/lifecycle/launcher"
        ["app"; cc_messages.StartCommand req; cc_messages.ExecutionMetadata req]
        env AppLogSource limits in
    if cc_messages.AllowSSH req then
      exists hostKeyPair k1 userKeyPair sshRoutePayload,
        NewKeyPair 1024 k = (Return hostKeyPair, k1) /\
        NewKeyPair 1024 k1 = (Return userKeyPair, k') /\
        json_Marshal
          {| ssh_routes.ContainerPort := 2222;
             ssh_routes.PrivateKey := PEMEncodedPrivateKey userKeyPair;
             ssh_routes.HostFingerprint := Fingerprint hostKeyPair |}
        = Return sshRoutePayload /\
        models.Ports lrp = ports ++ [DefaultSSHPort] /\
        models.Routes lrp = <[DIEGO_SSH := sshRoutePayload]> routes /\
        models.Action lrp =
          Some (models.CodependentAction
                  [launcher;
                   models.RunAction user "/tmp/lifecycle/diego-sshd"
                     ["-address=" +:+ ("0.0.0.0:" +:+ fmt_d DefaultSSHPort);
                      "-hostKey=" +:+ PEMEncodedPrivateKey hostKeyPair;
                      "-authorizedKey=" +:+ AuthorizedKey userKeyPair;
                      "-inheritDaemonEnv";
                      "-logLevel=fatal"]
                     env "" limits])
    else
      k' = k /\
      models.Ports lrp = ports /\
      models.Routes lrp = routes /\
      models.Action lrp = Some (models.CodependentAction [launcher]).
Proof.
  unfold Build. cbv zeta. intros HB.
  destruct (String.eqb (cc_messages.DockerImageUrl req) "") eqn:Himg;
    [discriminate|].
  destruct (String.eqb (cc_messages.DropletUri req) "") eqn:Hdrop;
    [|discriminate].
  apply String.eqb_neq in Himg. apply String.eqb_eq in Hdrop.
  cbn [negb andb] in HB.
  destruct (Lifecycles (config b) !! "docker") as [lifecyclePath|] eqn:Hlife;
    [|discriminate].
  destruct (cc_messages.AllowSSH req);
    build_inv;
    do 7 eexists;
    (do 9 (split; [eassumption || reflexivity|]));
    cbn [models.Privileged models.EnvironmentVariables models.Monitor
         models.Ports models.Routes models.Action models.WrapAction];
    (do 3 (split; [reflexivity|])).
  - do 4 eexists. repeat split; eassumption || reflexivity.
  - repeat split; reflexivity.
Qed.

(** C5. A request with both the image reference and the droplet set
    fails with [ErrMultipleAppSources]; a request with neither fails with
    [ErrDockerImageMissing]; in both cases [Build] returns the error, no
    LRP, and leaves the key factory alone. *)
Theorem Build_source_errors b (req : Request) k :
  (cc_messages.DockerImageUrl req <> "" ->
   cc_messages.DropletUri req <> "" ->
   Build b req k = (Fail ErrMultipleAppSources, k)) /\
  (cc_messages.DockerImageUrl req = "" ->
   cc_messages.DropletUri req = "" ->
   Build b req k = (Fail ErrDockerImageMissing, k)).
Proof.
  unfold Build. cbv zeta. split.
  - intros Himg%String.eqb_neq Hdrop%String.eqb_neq.
    rewrite Himg, Hdrop. reflexivity.
  - intros Himg%String.eqb_eq _. rewrite Himg. reflexivity.
Qed.

(** C10. The LRP of a successful [Build] is not privileged and has no
    container-level environment variables, whatever the request. *)
Theorem Build_unprivileged_no_env b (req : Request) k lrp k' :
  Build b req k = (Return lrp, k') ->
  models.Privileged lrp = false /\ models.EnvironmentVariables lrp = [].
Proof.
  intros HB. apply Build_success in HB.
  destruct HB as (? & ? & ? & ? & ? & ? & ? & HB).
  split; apply HB.
Qed.

(** C7. After a successful [Build] the monitor is present exactly when
    the health-check kind of the request is the port kind or the
    unspecified one, and then it is the timeout action of 30 seconds
    around [getParallelAction] of the ports and of the user extracted
    from the metadata; for any other kind it is absent. *)
Theorem Build_monitor b (req : Request) k lrp k' :
  Build b req k = (Return lrp, k') ->
  exists md user ports,
    NewDockerExecutionMetadata (cc_messages.ExecutionMetadata req) = Return md /\
    extractUser md = Return user /\
    extractExposedPorts md = Return ports /\
    (is_Some (models.Monitor lrp) <->
     cc_messages.HealthCheckType req = PortHealthCheckType \/
     cc_messages.HealthCheckType req = UnspecifiedHealthCheckType) /\
    (cc_messages.HealthCheckType req = PortHealthCheckType \/
     cc_messages.HealthCheckType req = UnspecifiedHealthCheckType ->
     models.Monitor lrp =
       Some (models.TimeoutAction (getParallelAction ports user)
               (30 * time_Second))) /\
    (~ (cc_messages.HealthCheckType req = PortHealthCheckType \/
        cc_messages.HealthCheckType req = UnspecifiedHealthCheckType) ->
     models.Monitor lrp = None).
Proof.
  intros HB. apply Build_success in HB.
  destruct HB as (? & ? & md & user & ports & ? & ? & HB).
  destruct HB as (_ & _ & _ & _ & Hmd & Huser & Hports & _ & _ & _ & _ & Hmon & _).
  exists md, user, ports. do 3 (split; [assumption|]).
  rewrite Hmon.
  destruct (String.eqb_spec (cc_messages.HealthCheckType req) PortHealthCheckType)
    as [Hp|Hp];
    [|destruct (String.eqb_spec (cc_messages.HealthCheckType req)
                 UnspecifiedHealthCheckType) as [Hu|Hu]];
    cbn [orb].
  - repeat split; eauto. intros Hn. destruct Hn. auto.
  - repeat split; eauto. intros Hn. destruct Hn. auto.
  - repeat split.
    + intros [a [=]].
    + intros [|]; done.
    + intros [|]; done.
Qed.

(** C6. When [Build] succeeds on a request with the secure-shell flag,
    it succeeds on the same request without the flag, and compared to
    that LRP: one port is appended to the port list, the route table has
    one more entry, bound to the secure-shell route identifier, and the
    codependent run action has exactly two run actions, the launcher and
    the secure-shell daemon.  The appended port and the port of the
    daemon's bind address are [DefaultSSHPort]; the route payload is the
    encoding of a route whose container port is 2222, the same port where
    [DefaultSSHPort] is 2222.  The route translation is taken not to use
    the secure-shell route identifier itself. *)
Theorem Build_ssh_adds_port_route_run b (req : Request) k lrp k' :
  cc_messages.AllowSSH req = true ->
  Build b req k = (Return lrp, k') ->
  DefaultSSHPort = 2222 ->
  (forall routingInfo ports routes,
     CCRouteInfoToRoutes routingInfo ports = Return routes ->
     routes !! DIEGO_SSH = None) ->
  exists lrp0 sshPort payload hostKeyPair userKeyPair
         user args env logSource limits sshdArgs sshdLogSource,
    Build b (cc_messages.with_AllowSSH false req) k = (Return lrp0, k) /\
    sshPort = DefaultSSHPort /\
    models.Ports lrp = models.Ports lrp0 ++ [sshPort] /\
    models.Routes lrp0 !! DIEGO_SSH = None /\
    models.Routes lrp = <[DIEGO_SSH := payload]> (models.Routes lrp0) /\
    size (models.Routes lrp) = S (size (models.Routes lrp0)) /\
    json_Marshal
      {| ssh_routes.ContainerPort := sshPort;
         ssh_routes.PrivateKey := PEMEncodedPrivateKey userKeyPair;
         ssh_routes.HostFingerprint := Fingerprint hostKeyPair |}
    = Return payload /\
    models.Action lrp0 =
      Some (models.CodependentAction
              [models.RunAction user "/tmp/lifecycle/launcher" args env
                 logSource limits]) /\
    models.Action lrp =
      Some (models.CodependentAction
              [models.RunAction user "/tmp/lifecycle/launcher" args env
                 logSource limits;
               models.RunAction user "/tmp/lifecycle/diego-sshd"
                 (("-address=" +:+ ("0.0.0.0:" +:+ fmt_d sshPort)) :: sshdArgs)
                 env sshdLogSource limits]).
Proof.
  intros Hssh HB Hport Hfresh.
  apply Build_success in HB.
  destruct HB as (lifecyclePath & rootFSPath & md & user & ports & port0
                  & routes & HB).
  destruct HB as (Himg & Hdrop & Hlife & Huri & Hmd & Huser & Hports & Hp0
                  & Hroutes & _ & _ & _ & HB).
  cbv zeta in HB. rewrite Hssh in HB.
  destruct HB as (hostKeyPair & k1 & userKeyPair & payload & _ & _ & Hjson
                  & HP & HR & HA).
  assert (H0 : exists lrp0,
             Build b (cc_messages.with_AllowSSH false req) k = (Return lrp0, k)).
  { unfold Build. cbv zeta.
    cbn [cc_messages.with_AllowSSH cc_messages.ProcessGuid
         cc_messages.DropletUri cc_messages.DockerImageUrl
         cc_messages.StartCommand cc_messages.ExecutionMetadata
         cc_messages.Environment cc_messages.MemoryMB cc_messages.DiskMB
         cc_messages.FileDescriptors cc_messages.NumInstances
         cc_messages.RoutingInfo cc_messages.AllowSSH cc_messages.LogGuid
         cc_messages.HealthCheckType cc_messages.HealthCheckTimeoutInSeconds
         cc_messages.EgressRules cc_messages.ETag].
    apply String.eqb_neq in Himg. rewrite Himg, Hdrop, Hlife.
    cbn [String.eqb negb andb].
    unfold mbind at 1, builder_bind, lift. rewrite Huri.
    unfold mbind at 1, builder_bind, lift. rewrite Hmd.
    unfold mbind at 1, builder_bind, lift. rewrite Huser.
    unfold mbind at 1, builder_bind, lift. rewrite Hports.
    unfold mbind at 1, builder_bind, lift. rewrite Hp0.
    unfold mbind at 1, builder_bind, lift. rewrite Hroutes.
    eexists. reflexivity. }
  destruct H0 as [lrp0 HB0]. pose proof HB0 as HS0.
  apply Build_success in HS0.
  destruct HS0 as (? & ? & md0 & user0 & ports0 & port00 & routes0 & HS0).
  destruct HS0 as (_ & _ & _ & _ & Hmd0 & Huser0 & Hports0 & Hp00
                   & Hroutes0 & _ & _ & _ & HS0).
  cbv zeta in HS0.
  cbn [cc_messages.with_AllowSSH cc_messages.AllowSSH
       cc_messages.ExecutionMetadata cc_messages.RoutingInfo
       cc_messages.StartCommand cc_messages.Environment
       cc_messages.FileDescriptors] in *.
  rewrite Hmd in Hmd0. injection Hmd0 as <-.
  rewrite Huser in Huser0. injection Huser0 as <-.
  rewrite Hports in Hports0. injection Hports0 as <-.
  rewrite Hp0 in Hp00. injection Hp00 as <-.
  rewrite Hroutes in Hroutes0. injection Hroutes0 as <-.
  destruct HS0 as (_ & HP0 & HR0 & HA0).
  pose proof (Hfresh _ _ _ Hroutes) as Hnone.
  exists lrp0, DefaultSSHPort, payload, hostKeyPair, userKeyPair.
  do 7 eexists.
  split; [exact HB0|]. split; [reflexivity|].
  rewrite HP, HR, HP0, HR0, HA, HA0, Hport.
  repeat split; try assumption; try reflexivity.
  rewrite map_size_insert_None by assumption. reflexivity.
Qed.

(** The errors that the calls inside [Build] make themselves. *)
Lemma convertDockerURI_error dockerURI e :
  convertDockerURI dockerURI = Fail e -> exists msg, e = errors_New msg.
Proof.
  unfold convertDockerURI, dockerURL.
  destruct (strings.Contains dockerURI "://"); cbn [mbind outcome_bind].
  - intros [= <-]. eauto.
  - destruct (parseDockerRepoUrl dockerURI) as [[[i r] t]| e' |] eqn:Hparse;
      cbn [mbind outcome_bind]; try discriminate.
    destruct (parseDockerRepoUrl_never_fails _ _ Hparse).
Qed.

Lemma extractExposedPorts_error md e :
  extractExposedPorts md = Fail e -> exists msg, e = errors_New msg.
Proof.
  unfold extractExposedPorts. cbv zeta.
  destruct (fold_left _ _ _) as [exposedPort ports].
  destruct (Nat.eqb (length ports) 0); [|discriminate].
  intros [= <-]. eauto.
Qed.

Lemma extractUser_returns md : exists user, extractUser md = Return user.
Proof. unfold extractUser. destruct (0 <? _); eauto. Qed.

Lemma index_never_fails {A} (a : list A) i e : index a i <> Fail e.
Proof. unfold index. destruct (a !! i); discriminate. Qed.

(** Takes a hypothesis [m k = (Fail e, k')] on a chain of binds apart:
    one goal per call that may have failed. *)
Ltac build_fail :=
  repeat match goal with
  | E : mbind _ _ _ = (Fail _, _) |- _ =>
      first [ apply bind_lift_Fail in E as [E | (? & ? & E)]
            | apply bind_Fail in E as [E | (? & ? & ? & E)] ]
  | E : (?m ?k).1 = Fail _ |- _ =>
      let o := fresh "o" in let k1 := fresh "k" in let E' := fresh "E" in
      destruct (m k) as [o k1] eqn:E'; cbn [fst] in E; subst o
  end.

(** On every platform, [Build] panics on a request for the image
    "docker.io" once the lifecycle is found. *)
Lemma Build_docker_io_panics b (req : Request) k lifecyclePath :
  cc_messages.DockerImageUrl req = "docker.io" ->
  cc_messages.DropletUri req = "" ->
  Lifecycles (config b) !! "docker" = Some lifecyclePath ->
  Build b req k = (Panic, k).
Proof.
  intros Himg Hdrop Hlife. unfold Build. cbv zeta.
  rewrite Himg, Hdrop, Hlife. reflexivity.
Qed.

(** C9. [Build] never returns [ErrNoDockerImage], as long as no
    collaborator hands that value to it: a request with an empty image
    reference has already failed with [ErrDockerImageMissing] at the
    first check, so that the second check of the image reference never
    fires. *)
Theorem Build_never_ErrNoDockerImage :
  (forall blob, NewDockerExecutionMetadata blob <> Fail ErrNoDockerImage) ->
  (forall routingInfo ports,
     CCRouteInfoToRoutes routingInfo ports <> Fail ErrNoDockerImage) ->
  (forall bits k, (NewKeyPair bits k).1 <> Fail ErrNoDockerImage) ->
  (forall route, json_Marshal route <> Fail ErrNoDockerImage) ->
  forall b (req : Request) k,
    (cc_messages.DockerImageUrl req = "" ->
     Build b req k = (Fail ErrDockerImageMissing, k)) /\
    (Build b req k).1 <> Fail ErrNoDockerImage.
Proof.
  intros Hmeta Hroutes Hkeys Hjson b req k. split.
  { intros Himg%String.eqb_eq. unfold Build. rewrite Himg. reflexivity. }
  destruct (Build b req k) as [o k'] eqn:HB. cbn [fst]. intros ->.
  revert HB. unfold Build. cbv zeta.
  destruct (String.eqb (cc_messages.DockerImageUrl req) ""); [discriminate|].
  destruct (negb _ && negb false); [discriminate|].
  destruct (Lifecycles (config b) !! "docker"); [|discriminate].
  intros HB.
  destruct (cc_messages.AllowSSH req); build_fail;
    repeat match goal with
    | E : convertDockerURI _ = Fail _ |- _ =>
        apply convertDockerURI_error in E as [? [=]]
    | E : extractExposedPorts _ = Fail _ |- _ =>
        apply extractExposedPorts_error in E as [? [=]]
    | E : extractUser ?md = Fail _ |- _ =>
        destruct (extractUser_returns md) as [? E']; rewrite E' in E;
        discriminate E
    | E : index _ _ = Fail _ |- _ => destruct (index_never_fails _ _ _ E)
    | E : NewDockerExecutionMetadata _ = Fail _ |- _ => destruct (Hmeta _ E)
    | E : CCRouteInfoToRoutes _ _ = Fail _ |- _ => destruct (Hroutes _ _ E)
    | E : json_Marshal _ = Fail _ |- _ => destruct (Hjson _ E)
    | E : NewKeyPair ?bits ?k = (Fail _, _) |- _ =>
        destruct (Hkeys bits k); rewrite E; reflexivity
    | E : (NewKeyPair ?bits ?k).1 = Fail _ |- _ => destruct (Hkeys bits k E)
    | x : (_ * _ * _)%type |- _ => destruct x as [[? ?] ?]
    end;
    discriminate.
Qed.

End BuildFacts.

(* ------------------------------------------------------------------ *)
(** ** The theorems on the sample platform *)

Lemma Build_source_errors_witness :
  Build (H := sample_platform) sample_builder
    (sample_request "user/repo:tag" "http://the-droplet.uri.com" false "port" "{}") 0
  = (Fail ErrMultipleAppSources, 0) /\
  Build (H := sample_platform) sample_builder
    (sample_request "" "" false "port" "{}") 0
  = (Fail ErrDockerImageMissing, 0).
Proof.
  split.
  - apply (Build_source_errors (H := sample_platform)); discriminate.
  - apply (Build_source_errors (H := sample_platform)); reflexivity.
Defined.

Lemma Build_unprivileged_no_env_witness :
  exists lrp k',
    Build (H := sample_platform) sample_builder
      (sample_request "user/repo:tag" "" true "port" "tcp+udp") 0
    = (Return lrp, k') /\
    models.Privileged lrp = false /\ models.EnvironmentVariables lrp = [].
Proof.
  eexists _, _. split; [vm_compute; reflexivity|].
  apply (Build_unprivileged_no_env (H := sample_platform) sample_builder
           (sample_request "user/repo:tag" "" true "port" "tcp+udp") 0 _ 2).
  vm_compute. reflexivity.
Defined.

Lemma Build_monitor_witness :
  exists lrp k',
    Build (H := sample_platform) sample_builder
      (sample_request "user/repo:tag" "" false "port" "tcp+udp") 0
    = (Return lrp, k') /\
    exists md user ports,
      NewDockerExecutionMetadata (Platform := sample_platform) "tcp+udp"
      = Return md /\
      extractUser md = Return user /\
      extractExposedPorts (H := sample_platform) md = Return ports /\
      (is_Some (models.Monitor lrp) <->
       "port" = PortHealthCheckType (Platform := sample_platform) \/
       "port" = UnspecifiedHealthCheckType (Platform := sample_platform)) /\
      ("port" = PortHealthCheckType (Platform := sample_platform) \/
       "port" = UnspecifiedHealthCheckType (Platform := sample_platform) ->
       models.Monitor lrp =
         Some (models.TimeoutAction
                 (getParallelAction (Platform := sample_platform) ports user)
                 (30 * time_Second))) /\
      (~ ("port" = PortHealthCheckType (Platform := sample_platform) \/
          "port" = UnspecifiedHealthCheckType (Platform := sample_platform)) ->
       models.Monitor lrp = None).
Proof.
  eexists _, _. split; [vm_compute; reflexivity|].
  apply (Build_monitor (H := sample_platform) sample_builder
           (sample_request "user/repo:tag" "" false "port" "tcp+udp") 0 _ 0).
  vm_compute. reflexivity.
Defined.

Lemma Build_ssh_adds_port_route_run_witness :
  exists lrp k',
    Build (H := sample_platform) sample_builder
      (sample_request "user/repo:tag" "" true "port" "tcp+udp") 0
    = (Return lrp, k') /\
    models.Ports lrp = [8081; 8082; 2222] /\
    exists lrp0 sshPort payload hostKeyPair userKeyPair
           user args env logSource limits sshdArgs sshdLogSource,
      Build (H := sample_platform) sample_builder
        (cc_messages.with_AllowSSH false
           (sample_request "user/repo:tag" "" true "port" "tcp+udp")) 0
      = (Return lrp0, 0) /\
      sshPort = DefaultSSHPort (Platform := sample_platform) /\
      models.Ports lrp = models.Ports lrp0 ++ [sshPort] /\
      models.Routes lrp0 !! DIEGO_SSH (Platform := sample_platform) = None /\
      models.Routes lrp
      = <[DIEGO_SSH (Platform := sample_platform) := payload]> (models.Routes lrp0) /\
      size (models.Routes lrp) = S (size (models.Routes lrp0)) /\
      json_Marshal (Platform := sample_platform)
        {| ssh_routes.ContainerPort := sshPort;
           ssh_routes.PrivateKey := PEMEncodedPrivateKey userKeyPair;
           ssh_routes.HostFingerprint := Fingerprint hostKeyPair |}
      = Return payload /\
      models.Action lrp0 =
        Some (models.CodependentAction
                [models.RunAction user "/tmp/lifecycle/launcher" args env
                   logSource limits]) /\
      models.Action lrp =
        Some (models.CodependentAction
                [models.RunAction user "/tmp/lifecycle/launcher" args env
                   logSource limits;
                 models.RunAction user "/tmp/lifecycle/diego-sshd"
                   (("-address=" +:+ ("0.0.0.0:" +:+ fmt_d sshPort)) :: sshdArgs)
                   env sshdLogSource limits]).
Proof.
  eexists _, _. split; [vm_compute; reflexivity|].
  split; [reflexivity|].
  apply (Build_ssh_adds_port_route_run (H := sample_platform) sample_builder
           (sample_request "user/repo:tag" "" true "port" "tcp+udp") 0 _ 2).
  - reflexivity.
  - vm_compute. reflexivity.
  - reflexivity.
  - intros routingInfo ports routes [= <-]. reflexivity.
Defined.

Lemma Build_never_ErrNoDockerImage_witness :
  (cc_messages.DockerImageUrl (sample_request "" "" false "port" "{}") = "" ->
   Build (H := sample_platform) sample_builder
     (sample_request "" "" false "port" "{}") 0
   = (Fail ErrDockerImageMissing, 0)) /\
  (Build (H := sample_platform) sample_builder
     (sample_request "" "" false "port" "{}") 0).1
  <> Fail ErrNoDockerImage.
Proof.
  apply (Build_never_ErrNoDockerImage (H := sample_platform)).
  - intros blob. cbn [NewDockerExecutionMetadata sample_platform].
    unfold sample_metadata. repeat destruct (String.eqb _ _); discriminate.
  - discriminate.
  - discriminate.
  - discriminate.
Defined.

(* ================================================================== *)
(** * Further properties *)

(* ------------------------------------------------------------------ *)
(** ** What the parser returns *)

Lemma rcut_None_cut c s : rcut c s = None -> cut c s = None.
Proof.
  induction s as [|a s IH]; simpl; [reflexivity|].
  destruct (rcut c s) as [[x y]|]; [discriminate|].
  destruct (Ascii.eqb c a); [discriminate|].
  intros _. rewrite IH; reflexivity.
Qed.

Lemma rcut_right c s x y : rcut c s = Some (x, y) -> cut c y = None.
Proof.
  revert x y. induction s as [|a s IH]; intros x y; simpl; [discriminate|].
  destruct (rcut c s) as [[x' y']|] eqn:Hr.
  - intros [= <- <-]. eauto.
  - destruct (Ascii.eqb c a); [|discriminate].
    intros [= <- <-]. apply rcut_None_cut. exact Hr.
Qed.

(** The tag that [split_tag] returns has neither "/" nor ":". *)
Lemma split_tag_clean m repo tag :
  split_tag m = (repo, tag) ->
  strings.Contains tag "/" = false /\ strings.Contains tag ":" = false.
Proof.
  unfold split_tag.
  destruct (rcut ":" m) as [[x y]|] eqn:Hr; [|intros [= _ <-]; split; reflexivity].
  destruct (strings.Contains y "/") eqn:Hy; [intros [= _ <-]; split; reflexivity|].
  intros [= _ <-]. split; [exact Hy|].
  rewrite Contains_cut, (rcut_right _ _ _ _ Hr). reflexivity.
Qed.

(** The three ways in which a reference parses: [m] is the repository
    path before its tag is split off. *)
Lemma parse_shape dockerURI indexName remoteName tag :
  parseDockerRepoUrl dockerURI = Return (indexName, remoteName, tag) ->
  exists m,
    split_tag m = (remoteName, tag) /\
    (indexName = EmptyString /\ m = library_prefix dockerURI \/
     (exists p1, cut "/" dockerURI = Some (indexName, p1) /\
                 indexName = DockerIndexServer /\ m = library_prefix p1) \/
     (exists p1, cut "/" dockerURI = Some (indexName, p1) /\
                 String.eqb indexName DockerIndexServer = false /\
                 plain_name indexName = false /\ m = p1)).
Proof.
  rewrite parseDockerRepoUrl_cases.
  destruct (cut "/" dockerURI) as [[p0 p1]|] eqn:Hcut.
  - destruct (String.eqb p0 DockerIndexServer) eqn:Hio.
    + apply String.eqb_eq in Hio. subst p0.
      destruct (split_tag (library_prefix p1)) as [repo t] eqn:Hst.
      intros [= <- <- <-]. eexists. split; [exact Hst|]. right. left. eauto.
    + destruct (plain_name p0) eqn:Hplain.
      * destruct (split_tag (library_prefix dockerURI)) as [repo t] eqn:Hst.
        intros [= <- <- <-]. eexists. split; [exact Hst|]. left. auto.
      * destruct (split_tag p1) as [repo t] eqn:Hst.
        intros [= <- <- <-]. eexists. split; [exact Hst|]. right. right. eauto.
  - destruct (String.eqb dockerURI DockerIndexServer); [discriminate|].
    destruct (split_tag (library_prefix dockerURI)) as [repo t] eqn:Hst.
    intros [= <- <- <-]. eexists. split; [exact Hst|]. left. auto.
Qed.

(** X1. A parsed tag contains neither "/" nor ":". *)
Theorem parsed_tag_has_no_separator dockerURI indexName remoteName tag :
  parseDockerRepoUrl dockerURI = Return (indexName, remoteName, tag) ->
  strings.Contains tag "/" = false /\ strings.Contains tag ":" = false.
Proof.
  intros Hparse. destruct (parse_shape _ _ _ _ Hparse) as (m & Hst & _).
  exact (split_tag_clean _ _ _ Hst).
Qed.

Lemma parsed_tag_has_no_separator_witness :
  strings.Contains "1.0" "/" = false /\ strings.Contains "1.0" ":" = false.
Proof.
  apply (parsed_tag_has_no_separator "myregistry.com:5000/foo/bar:1.0"
           "myregistry.com:5000" "foo/bar" "1.0").
  reflexivity.
Defined.

(** X2. A parsed index name is empty or names a host: it contains "." or
    ":", or is "localhost"; and it never contains "/". *)
Theorem parsed_index_is_host dockerURI indexName remoteName tag :
  parseDockerRepoUrl dockerURI = Return (indexName, remoteName, tag) ->
  strings.Contains indexName "/" = false /\
  (indexName = EmptyString \/
   strings.Contains indexName "." = true \/
   strings.Contains indexName ":" = true \/
   indexName = "localhost").
Proof.
  intros Hparse. destruct (parse_shape _ _ _ _ Hparse) as (m & _ & Hcase).
  destruct Hcase as [[-> _] | [(p1 & Hcut & -> & _) | (p1 & Hcut & _ & Hplain & _)]].
  - split; [reflexivity | auto].
  - split; [reflexivity | right; left; reflexivity].
  - split.
    + rewrite Contains_cut, (cut_left _ _ _ _ Hcut). reflexivity.
    + right. unfold plain_name in Hplain.
      destruct (strings.Contains indexName "."); [auto|].
      destruct (strings.Contains indexName ":"); [auto|].
      destruct (String.eqb_spec indexName "localhost"); [auto | discriminate].
Qed.

Lemma parsed_index_is_host_witness :
  strings.Contains "localhost" "/" = false /\
  ("localhost" = EmptyString \/
   strings.Contains "localhost" "." = true \/
   strings.Contains "localhost" ":" = true \/
   "localhost" = "localhost").
Proof.
  apply (parsed_index_is_host "localhost/foo:bar" "localhost" "foo" "bar").
  reflexivity.
Defined.

(** X3. With the default index, named or left out, the parsed repository
    always has a namespace: it contains "/". *)
Theorem official_repository_has_namespace dockerURI indexName remoteName tag :
  parseDockerRepoUrl dockerURI = Return (indexName, remoteName, tag) ->
  indexName = EmptyString \/ indexName = DockerIndexServer ->
  strings.Contains remoteName "/" = true.
Proof.
  intros Hparse Hofficial.
  destruct (parse_shape _ _ _ _ Hparse) as (m & Hst & Hcase).
  assert (Hm : exists p, m = library_prefix p).
  { destruct Hcase as [[_ ->] | [(p1 & _ & _ & ->) | (p1 & _ & Hio & Hplain & _)]];
      [eauto | eauto |].
    destruct Hofficial as [-> | ->]; discriminate. }
  destruct Hm as [p ->].
  destruct (library_prefix_cut p) as (x & y & Hlib).
  destruct (split_tag_keeps_slash _ _ _ _ _ Hlib Hst) as (x' & y' & Hrepo).
  rewrite Contains_cut, Hrepo. reflexivity.
Qed.

Lemma official_repository_has_namespace_witness :
  strings.Contains "library/ubuntu" "/" = true.
Proof.
  apply (official_repository_has_namespace "ubuntu:14.04" "" "library/ubuntu" "14.04");
    [reflexivity | left; reflexivity].
Defined.

(** X4. Naming the default index in front of a reference that parses without
    an index name changes the index name only: repository and tag stay. *)
Theorem explicit_default_index dockerURI remoteName tag :
  parseDockerRepoUrl dockerURI = Return (EmptyString, remoteName, tag) ->
  parseDockerRepoUrl ("docker.io/" +:+ dockerURI)
  = Return (DockerIndexServer, remoteName, tag).
Proof.
  intros Hparse. destruct (parse_shape _ _ _ _ Hparse) as (m & Hst & Hcase).
  assert (Hm : m = library_prefix dockerURI).
  { destruct Hcase as [[_ ->] | [(p1 & _ & Hio & _) | (p1 & _ & _ & Hplain & _)]];
      [reflexivity | discriminate | discriminate]. }
  subst m. rewrite parseDockerRepoUrl_cases.
  change (cut "/" ("docker.io/" +:+ dockerURI))
    with (Some (DockerIndexServer, dockerURI)).
  cbv beta iota. change (String.eqb DockerIndexServer DockerIndexServer) with true.
  cbv iota. rewrite Hst. reflexivity.
Qed.

Lemma explicit_default_index_witness :
  parseDockerRepoUrl ("docker.io/" +:+ "user/repo:tag")
  = Return (DockerIndexServer, "user/repo", "tag").
Proof.
  apply (explicit_default_index "user/repo:tag"). reflexivity.
Defined.

(** X5. [parseDockerRepositoryTag] always returns, its tag has neither "/"
    nor ":", and its two results put the name together again: with a tag
    the name is repository":"tag, without one it is the repository
    itself or the repository followed by a ":". *)
Theorem parseDockerRepositoryTag_rejoin remoteName :
  exists repo tag,
    parseDockerRepositoryTag remoteName = Return (repo, tag) /\
    strings.Contains tag "/" = false /\
    strings.Contains tag ":" = false /\
    (tag <> EmptyString -> remoteName = repo +:+ ":" +:+ tag) /\
    (tag = EmptyString -> remoteName = repo \/ remoteName = repo +:+ ":").
Proof.
  rewrite parseDockerRepositoryTag_split.
  destruct (split_tag remoteName) as [repo tag] eqn:Hst.
  exists repo, tag. split; [reflexivity|].
  destruct (split_tag_clean _ _ _ Hst) as [Hslash Hcolon].
  do 2 (split; [assumption|]). split.
  - intros Htag. exact (split_tag_tagged _ _ _ Hst Htag).
  - intros ->. revert Hst. unfold split_tag.
    destruct (rcut ":" remoteName) as [[x y]|] eqn:Hr; [|intros [= <-]; auto].
    destruct (strings.Contains y "/"); [intros [= <-]; auto|].
    intros [= <- ->]. right. exact (rcut_eq _ _ _ _ Hr).
Qed.

Lemma parseDockerRepositoryTag_rejoin_witness :
  exists repo tag,
    parseDockerRepositoryTag "localhost:5000/foo:1.0" = Return (repo, tag) /\
    strings.Contains tag "/" = false /\
    strings.Contains tag ":" = false /\
    (tag <> EmptyString -> "localhost:5000/foo:1.0" = repo +:+ ":" +:+ tag) /\
    (tag = EmptyString ->
     "localhost:5000/foo:1.0" = repo \/ "localhost:5000/foo:1.0" = repo +:+ ":").
Proof. exact (parseDockerRepositoryTag_rejoin "localhost:5000/foo:1.0"). Defined.

(** X6. The parts of a parse with a non-empty index name put the reference
    together again, as index"/"repository and ":"tag when there is a
    tag, when the reference does not end in ":"; except that after the
    default index a repository without "/" has got its "library/" in
    front. *)
Theorem parsed_parts_rejoin dockerURI indexName remoteName tag :
  parseDockerRepoUrl dockerURI = Return (indexName, remoteName, tag) ->
  indexName <> EmptyString ->
  HasSuffix dockerURI ":" = false ->
  let joined :=
    indexName +:+ "/" +:+ remoteName
    +:+ (if String.eqb tag "" then "" else ":" +:+ tag) in
  joined = dockerURI \/
  exists name,
    dockerURI = "docker.io/" +:+ name /\
    strings.Contains name "/" = false /\
    joined = "docker.io/library/" +:+ name.
Proof.
  intros Hparse Hindex Hsuf joined.
  change joined with (canonical_path (indexName, remoteName, tag)). clear joined.
  destruct (parse_with_index _ _ _ _ Hparse Hindex)
    as (p1 & m & Hcut & Hst & Hcase).
  pose proof (cut_eq _ _ _ _ Hcut) as Hs.
  assert (Hp1 : HasSuffix p1 ":" = false).
  { rewrite Hs in Hsuf. apply HasSuffix_tail in Hsuf. simpl in Hsuf. exact Hsuf. }
  assert (Hcanon : HasSuffix m ":" = false ->
                   canonical_path (indexName, remoteName, tag)
                   = indexName +:+ String "/" m).
  { intros Hm. unfold canonical_path.
    rewrite (split_tag_rebuild _ _ _ Hm Hst). reflexivity. }
  destruct Hcase as [[Hio ->] | (_ & _ & ->)].
  - rewrite (Hcanon (library_prefix_suffix _ Hp1)).
    apply String.eqb_eq in Hio. subst indexName.
    unfold library_prefix, strings.IndexRune. rewrite Index_cut.
    destruct (cut "/" p1) as [[x y]|] eqn:Hp.
    + left. pose proof (len_nonneg x).
      destruct (Z.eqb_spec (strings.len x) (-1)); [lia|]. symmetry. exact Hs.
    + right. exists p1. split; [exact Hs|]. split; [|reflexivity].
      rewrite Contains_cut, Hp. reflexivity.
  - left. rewrite (Hcanon Hp1). symmetry. exact Hs.
Qed.

Lemma parsed_parts_rejoin_witness :
  let joined :=
    "myregistry.com:5000" +:+ "/" +:+ "foo/bar"
    +:+ (if String.eqb "1.0" "" then "" else ":" +:+ "1.0") in
  joined = "myregistry.com:5000/foo/bar:1.0" \/
  exists name,
    "myregistry.com:5000/foo/bar:1.0" = "docker.io/" +:+ name /\
    strings.Contains name "/" = false /\
    joined = "docker.io/library/" +:+ name.
Proof.
  apply (parsed_parts_rejoin "myregistry.com:5000/foo/bar:1.0");
    [reflexivity | discriminate | reflexivity].
Defined.

(** X7. [convertDockerURI] in full: a reference with "://" is refused with
    the error that quotes it; "docker.io" alone panics; every other
    reference is parsed and returned as the URL of scheme "docker", of
    path index"/"repository and of fragment tag. *)
Theorem convertDockerURI_outcomes `{Platform} dockerURI :
  (strings.Contains dockerURI "://" = true ->
   convertDockerURI dockerURI
   = Fail (errors_New ("docker URI [" +:+ dockerURI
                       +:+ "] should not contain scheme"))) /\
  (dockerURI = DockerIndexServer -> convertDockerURI dockerURI = Panic) /\
  (strings.Contains dockerURI "://" = false ->
   dockerURI <> DockerIndexServer ->
   exists indexName remoteName tag,
     parseDockerRepoUrl dockerURI = Return (indexName, remoteName, tag) /\
     convertDockerURI dockerURI
     = Return (URL_String {| Scheme := "docker";
                             Path := indexName +:+ "/" +:+ remoteName;
                             Fragment := tag |})).
Proof.
  unfold convertDockerURI, dockerURL. repeat split.
  - intros ->. reflexivity.
  - intros ->. reflexivity.
  - intros -> Hne.
    destruct (parseDockerRepoUrl dockerURI) as [[[i r] t]|e|] eqn:Hparse.
    + exists i, r, t. split; reflexivity.
    + destruct (parseDockerRepoUrl_never_fails _ _ Hparse).
    + apply parseDockerRepoUrl_panics_iff in Hparse. contradiction.
Qed.

Lemma convertDockerURI_outcomes_witness :
  convertDockerURI (H := sample_platform) "docker://user/repo"
  = Fail (errors_New ("docker URI [" +:+ "docker://user/repo"
                      +:+ "] should not contain scheme")) /\
  exists indexName remoteName tag,
    parseDockerRepoUrl "user/repo:tag" = Return (indexName, remoteName, tag) /\
    convertDockerURI (H := sample_platform) "user/repo:tag"
    = Return (URL_String (Platform := sample_platform)
                {| Scheme := "docker";
                   Path := indexName +:+ "/" +:+ remoteName;
                   Fragment := tag |}).
Proof.
  split.
  - apply (convertDockerURI_outcomes (H := sample_platform) "docker://user/repo").
    reflexivity.
  - apply (convertDockerURI_outcomes (H := sample_platform) "user/repo:tag");
      [reflexivity | discriminate].
Defined.

(* ------------------------------------------------------------------ *)
(** ** What [Build] returns, field by field *)

Lemma bind_lift_Panic {K A B} (o : outcome A) (f : A -> builder K B) k k' :
  (lift o ≫= f) k = (Panic, k') ->
  o = Panic \/ exists a, o = Return a /\ f a k = (Panic, k').
Proof.
  unfold mbind, builder_bind, lift.
  destruct o as [a| |]; [eauto | discriminate | auto].
Qed.

Lemma bind_Panic {K A B} (m : builder K A) (f : A -> builder K B) k k' :
  (m ≫= f) k = (Panic, k') ->
  (m k).1 = Panic \/ exists a k1, m k = (Return a, k1) /\ f a k1 = (Panic, k').
Proof.
  unfold mbind, builder_bind.
  destruct (m k) as [[a| |] k1]; [eauto | discriminate | auto].
Qed.

Lemma bind_lift_state {K A B} (o : outcome A) (f : A -> builder K B) k :
  (forall a, (f a k).2 = k) -> ((lift o ≫= f) k).2 = k.
Proof.
  intros Hf. unfold mbind, builder_bind, lift.
  destruct o as [a| |]; [apply Hf | reflexivity..].
Qed.

Section BuildFields.

Context `{Platform}.

Local Abbreviation Request :=
  (cc_messages.DesireAppRequestFromCC CCRouteInfo SecurityGroupRule).

(** The ports that extraction returns are never the empty list. *)
Lemma extractExposedPorts_nonempty md ports :
  extractExposedPorts md = Return ports -> exists p rest, ports = p :: rest.
Proof.
  unfold extractExposedPorts. cbv zeta.
  destruct (fold_left _ _ _) as [exposedPort ps].
  destruct ps as [|p rest]; [discriminate|].
  intros [= <-]. eauto.
Qed.

(** A successful [Build], in full: the calls it made and the LRP it
    returns. *)
Lemma Build_record b (req : Request) k lrp k' :
  Build b req k = (Return lrp, k') ->
  exists lifecyclePath rootFSPath md user ports port0 routes
         actions routes' ports',
    cc_messages.DockerImageUrl req <> "" /\
    cc_messages.DropletUri req = "" /\
    Lifecycles (config b) !! "docker" = Some lifecyclePath /\
    convertDockerURI (cc_messages.DockerImageUrl req) = Return rootFSPath /\
    NewDockerExecutionMetadata (cc_messages.ExecutionMetadata req) = Return md /\
    extractUser md = Return user /\
    extractExposedPorts md = Return ports /\
    index ports 0 = Return port0 /\
    CCRouteInfoToRoutes (cc_messages.RoutingInfo req) ports = Return routes /\
    (let limits :=
       Some {| models.Nofile :=
                 Some (if negb (cc_messages.FileDescriptors req =? 0)
                       then cc_messages.FileDescriptors req
                       else DefaultFileDescriptorLimit) |} in
     let env := createLrpEnv (cc_messages.Environment req) port0 in
     let launcher :=
       models.RunAction user "/tmp/lifecycle/launcher"
         ["app"; cc_messages.StartCommand req; cc_messages.ExecutionMetadata req]
         env AppLogSource limits in
     if cc_messages.AllowSSH req then
       exists hostKeyPair k1 userKeyPair sshRoutePayload,
         NewKeyPair 1024 k = (Return hostKeyPair, k1) /\
         NewKeyPair 1024 k1 = (Return userKeyPair, k') /\
         json_Marshal
           {| ssh_routes.ContainerPort := 2222;
              ssh_routes.PrivateKey := PEMEncodedPrivateKey userKeyPair;
              ssh_routes.HostFingerprint := Fingerprint hostKeyPair |}
         = Return sshRoutePayload /\
         ports' = ports ++ [DefaultSSHPort] /\
         routes' = <[DIEGO_SSH := sshRoutePayload]> routes /\
         actions =
           [launcher;
            models.RunAction user "/tmp/lifecycle/diego-sshd"
              ["-address=" +:+ ("0.0.0.0:" +:+ fmt_d DefaultSSHPort);
               "-hostKey=" +:+ PEMEncodedPrivateKey hostKeyPair;
               "-authorizedKey=" +:+ AuthorizedKey userKeyPair;
               "-inheritDaemonEnv";
               "-logLevel=fatal"]
              env "" limits]
     else
       k' = k /\ ports' = ports /\ routes' = routes /\ actions = [launcher]) /\
    lrp =
      {| models.Privileged := false;
         models.Domain := AppLRPDomain;
         models.ProcessGuid := cc_messages.ProcessGuid req;
         models.Instances := int32 (cc_messages.NumInstances req);
         models.Routes := routes';
         models.Annotation := cc_messages.ETag req;
         models.CpuWeight := cpuWeight (cc_messages.MemoryMB req);
         models.MemoryMb := int32 (cc_messages.MemoryMB req);
         models.DiskMb := int32 (cc_messages.DiskMB req);
         models.Ports := ports';
         models.RootFs := rootFSPath;
         models.LogGuid := cc_messages.LogGuid req;
         models.LogSource := LRPLogSource;
         models.MetricsGuid := cc_messages.LogGuid req;
         models.EnvironmentVariables := [];
         models.Setup :=
           Some (models.SerialAction
                   [models.DownloadAction
                      (lifecycleDownloadURL lifecyclePath
                         (FileServerURL (config b)))
                      "/tmp/lifecycle" "docker-lifecycle" user]);
         models.Action := Some (models.CodependentAction actions);
         models.Monitor :=
           (if String.eqb (cc_messages.HealthCheckType req) PortHealthCheckType
               || String.eqb (cc_messages.HealthCheckType req)
                    UnspecifiedHealthCheckType
            then Some (models.TimeoutAction (getParallelAction ports user)
                         (30 * time_Second))
            else None);
         models.StartTimeout :=
           uint32 (cc_messages.HealthCheckTimeoutInSeconds req);
         models.EgressRules := cc_messages.EgressRules req |}.
Proof.
  unfold Build. cbv zeta. intros HB.
  destruct (String.eqb (cc_messages.DockerImageUrl req) "") eqn:Himg;
    [discriminate|].
  destruct (String.eqb (cc_messages.DropletUri req) "") eqn:Hdrop;
    [|discriminate].
  apply String.eqb_neq in Himg. apply String.eqb_eq in Hdrop.
  cbn [negb andb] in HB.
  destruct (Lifecycles (config b) !! "docker") as [lifecyclePath|] eqn:Hlife;
    [|discriminate].
  destruct (cc_messages.AllowSSH req);
    build_inv;
    do 10 eexists;
    (do 9 (split; [eassumption || reflexivity|]));
    (split; [|reflexivity]); cbv zeta.
  - do 4 eexists. repeat split; eassumption || reflexivity.
  - repeat split; reflexivity.
Qed.

(** X8. Without the "docker" lifecycle in the configuration, a request that
    passes the source checks fails with [ErrNoLifecycleDefined], whatever
    its image reference and metadata are. *)
Theorem Build_unknown_lifecycle cfg (req : Request) k :
  cc_messages.DockerImageUrl req <> "" ->
  cc_messages.DropletUri req = "" ->
  Lifecycles cfg !! "docker" = None ->
  Build (NewDockerRecipeBuilder cfg) req k = (Fail ErrNoLifecycleDefined, k).
Proof.
  intros Himg%String.eqb_neq Hdrop Hlife. unfold Build. cbv zeta.
  cbn [config NewDockerRecipeBuilder].
  rewrite Himg, Hdrop, Hlife. reflexivity.
Qed.

(** X9. An image reference with "://" makes [Build] fail with the error of
    [convertDockerURI] that quotes the reference, before the metadata is
    decoded and without a call to the key factory. *)
Theorem Build_refuses_scheme b (req : Request) k lifecyclePath :
  strings.Contains (cc_messages.DockerImageUrl req) "://" = true ->
  cc_messages.DropletUri req = "" ->
  Lifecycles (config b) !! "docker" = Some lifecyclePath ->
  Build b req k
  = (Fail (errors_New ("docker URI [" +:+ cc_messages.DockerImageUrl req
                       +:+ "] should not contain scheme")), k).
Proof.
  intros Hscheme Hdrop Hlife. unfold Build. cbv zeta.
  destruct (String.eqb_spec (cc_messages.DockerImageUrl req) "") as [Himg|_].
  { rewrite Himg in Hscheme. discriminate. }
  rewrite Hdrop, Hlife. cbn [String.eqb negb andb].
  unfold convertDockerURI, dockerURL. rewrite Hscheme. reflexivity.
Qed.

(** X10. Without the secure-shell flag, [Build] leaves the key factory as it
    found it, whatever the outcome. *)
Theorem Build_without_ssh_keeps_key_factory b (req : Request) k :
  cc_messages.AllowSSH req = false ->
  (Build b req k).2 = k.
Proof.
  intros Hssh. unfold Build. cbv zeta. rewrite Hssh.
  destruct (String.eqb (cc_messages.DockerImageUrl req) ""); [reflexivity|].
  destruct (negb _ && negb false); [reflexivity|].
  destruct (Lifecycles (config b) !! "docker"); [|reflexivity].
  repeat (apply bind_lift_state; intros ?).
  repeat match goal with x : (_ * _)%type |- _ => destruct x end.
  reflexivity.
Qed.

(** X11. The ports that [ExtractExposedPorts] returns for a request are the
    ports of the LRP that [Build] returns for it, followed by the
    secure-shell port when the flag is set; the list is not empty. *)
Theorem Build_ports_are_extracted b (req : Request) k lrp k' :
  Build b req k = (Return lrp, k') ->
  exists p rest,
    ExtractExposedPorts b req = Return (p :: rest) /\
    models.Ports lrp =
      (if cc_messages.AllowSSH req
       then (p :: rest) ++ [DefaultSSHPort] else p :: rest).
Proof.
  intros HB. apply Build_record in HB.
  destruct HB as (lifecyclePath & rootFSPath & md & user & ports & port0
                  & routes & actions & routes' & ports' & HB).
  destruct HB as (_ & _ & _ & _ & Hmd & _ & Hports & _ & _ & Hssh & ->).
  destruct (extractExposedPorts_nonempty _ _ Hports) as (p & rest & ->).
  exists p, rest. split.
  - unfold ExtractExposedPorts. cbv zeta. rewrite Hmd. exact Hports.
  - cbv zeta in Hssh. cbn [models.Ports].
    destruct (cc_messages.AllowSSH req).
    + destruct Hssh as (? & ? & ? & ? & _ & _ & _ & -> & _). reflexivity.
    + destruct Hssh as (_ & -> & _). reflexivity.
Qed.

(** X12. The setup of a successful [Build] is one download, run in series: the
    lifecycle found in the configuration, from the file server, to
    "/tmp/lifecycle", cached as "docker-lifecycle", as the user of the
    metadata, or as "root" when the metadata names none; the user is
    never empty. *)
Theorem Build_setup b (req : Request) k lrp k' :
  Build b req k = (Return lrp, k') ->
  exists lifecyclePath md user,
    Lifecycles (config b) !! "docker" = Some lifecyclePath /\
    NewDockerExecutionMetadata (cc_messages.ExecutionMetadata req) = Return md /\
    user <> EmptyString /\
    (User md <> EmptyString -> user = User md) /\
    (User md = EmptyString -> user = "root") /\
    models.Setup lrp =
      Some (models.SerialAction
              [models.DownloadAction
                 (lifecycleDownloadURL lifecyclePath (FileServerURL (config b)))
                 "/tmp/lifecycle" "docker-lifecycle" user]).
Proof.
  intros HB. apply Build_record in HB.
  destruct HB as (lifecyclePath & rootFSPath & md & user & ports & port0
                  & routes & actions & routes' & ports' & HB).
  destruct HB as (_ & _ & Hlife & _ & Hmd & Huser & _ & _ & _ & _ & ->).
  exists lifecyclePath, md, user. do 2 (split; [assumption|]).
  split; [|split; [|split; [|reflexivity]]];
    revert Huser; unfold extractUser, strings.len;
    destruct (User md) as [|c u]; simpl; intros [= <-]; done.
Qed.

(** X13. The root file system of a successful [Build] is the serialized URL
    of the parsed image reference: scheme "docker", path
    index"/"repository, fragment tag; the image reference then has no
    "://" and is not "docker.io". *)
Theorem Build_rootfs b (req : Request) k lrp k' :
  Build b req k = (Return lrp, k') ->
  exists indexName remoteName tag,
    strings.Contains (cc_messages.DockerImageUrl req) "://" = false /\
    cc_messages.DockerImageUrl req <> DockerIndexServer /\
    parseDockerRepoUrl (cc_messages.DockerImageUrl req)
    = Return (indexName, remoteName, tag) /\
    models.RootFs lrp =
      URL_String {| Scheme := "docker";
                    Path := indexName +:+ "/" +:+ remoteName;
                    Fragment := tag |}.
Proof.
  intros HB. apply Build_record in HB.
  destruct HB as (lifecyclePath & rootFSPath & md & user & ports & port0
                  & routes & actions & routes' & ports' & HB).
  destruct HB as (_ & _ & _ & Huri & _ & _ & _ & _ & _ & _ & ->).
  revert Huri. unfold convertDockerURI, dockerURL.
  destruct (strings.Contains (cc_messages.DockerImageUrl req) "://");
    [discriminate|].
  destruct (parseDockerRepoUrl (cc_messages.DockerImageUrl req))
    as [[[i r] t]|e|] eqn:Hparse; [|discriminate..].
  cbn [mbind outcome_bind]. intros [= <-].
  exists i, r, t. repeat split.
  intros Hio. rewrite Hio in Hparse. discriminate.
Qed.

(** X14. Every action that a successful [Build] runs runs as the extracted
    user, with the environment made for the first extracted port (also
    the secure-shell daemon), and with the file-descriptor limit of the
    request, or the default when the request has 0. *)
Theorem Build_run_actions b (req : Request) k lrp k' :
  Build b req k = (Return lrp, k') ->
  exists md user port0 rest actions,
    NewDockerExecutionMetadata (cc_messages.ExecutionMetadata req) = Return md /\
    extractUser md = Return user /\
    extractExposedPorts md = Return (port0 :: rest) /\
    models.Action lrp = Some (models.CodependentAction actions) /\
    Forall (fun action =>
              exists path args logSource,
                action =
                  models.RunAction user path args
                    (createLrpEnv (cc_messages.Environment req) port0)
                    logSource
                    (Some {| models.Nofile :=
                               Some (if cc_messages.FileDescriptors req =? 0
                                     then DefaultFileDescriptorLimit
                                     else cc_messages.FileDescriptors req) |}))
           actions.
Proof.
  intros HB. apply Build_record in HB.
  destruct HB as (lifecyclePath & rootFSPath & md & user & ports & port0
                  & routes & actions & routes' & ports' & HB).
  destruct HB as (_ & _ & _ & _ & Hmd & Huser & Hports & Hp0 & _ & Hssh & ->).
  destruct (extractExposedPorts_nonempty _ _ Hports) as (p & rest & ->).
  injection Hp0 as ->.
  exists md, user, port0, rest, actions. do 4 (split; [assumption || reflexivity|]).
  cbv zeta in Hssh.
  replace (if negb (cc_messages.FileDescriptors req =? 0)
           then cc_messages.FileDescriptors req
           else DefaultFileDescriptorLimit)
    with (if cc_messages.FileDescriptors req =? 0
          then DefaultFileDescriptorLimit
          else cc_messages.FileDescriptors req) in Hssh
    by (destruct (cc_messages.FileDescriptors req =? 0); reflexivity).
  destruct (cc_messages.AllowSSH req).
  - destruct Hssh as (? & ? & ? & ? & _ & _ & _ & _ & _ & ->).
    repeat constructor; eauto.
  - destruct Hssh as (_ & _ & _ & ->). repeat constructor; eauto.
Qed.

(** X15. With the secure-shell flag, a successful [Build] asked the key
    factory for two 1024-bit pairs, the host's first; the daemon is
    started with the host's private key and the user's authorized key,
    and the route table holds, under the secure-shell identifier, the
    encoding of container port 2222 with the user's private key and the
    host's fingerprint. *)
Theorem Build_ssh_keys b (req : Request) k lrp k' :
  cc_messages.AllowSSH req = true ->
  Build b req k = (Return lrp, k') ->
  exists hostKeyPair k1 userKeyPair payload launcher user env logSource limits,
    NewKeyPair 1024 k = (Return hostKeyPair, k1) /\
    NewKeyPair 1024 k1 = (Return userKeyPair, k') /\
    json_Marshal
      {| ssh_routes.ContainerPort := 2222;
         ssh_routes.PrivateKey := PEMEncodedPrivateKey userKeyPair;
         ssh_routes.HostFingerprint := Fingerprint hostKeyPair |}
    = Return payload /\
    models.Routes lrp !! DIEGO_SSH = Some payload /\
    models.Action lrp =
      Some (models.CodependentAction
              [launcher;
               models.RunAction user "/tmp/lifecycle/diego-sshd"
                 ["-address=" +:+ ("0.0.0.0:" +:+ fmt_d DefaultSSHPort);
                  "-hostKey=" +:+ PEMEncodedPrivateKey hostKeyPair;
                  "-authorizedKey=" +:+ AuthorizedKey userKeyPair;
                  "-inheritDaemonEnv";
                  "-logLevel=fatal"]
                 env logSource limits]).
Proof.
  intros Hflag HB. apply Build_record in HB.
  destruct HB as (lifecyclePath & rootFSPath & md & user & ports & port0
                  & routes & actions & routes' & ports' & HB).
  destruct HB as (_ & _ & _ & _ & _ & _ & _ & _ & _ & Hssh & ->).
  cbv zeta in Hssh. rewrite Hflag in Hssh.
  destruct Hssh as (hostKeyPair & k1 & userKeyPair & payload
                    & Hhost & Huser & Hjson & _ & -> & ->).
  exists hostKeyPair, k1, userKeyPair, payload. do 5 eexists.
  do 3 (split; [assumption|]). split; [|reflexivity].
  cbn [models.Routes]. apply lookup_insert_eq.
Qed.

(** X16. The instance count, the memory and the disk quota of the LRP are
    the request's, cut to 32 bits: always within the range of int32, and
    the request's own values whenever those are within it. *)
Theorem Build_quotas b (req : Request) k lrp k' :
  Build b req k = (Return lrp, k') ->
  let in_int32 z := - 2 ^ 31 <= z < 2 ^ 31 in
  in_int32 (models.Instances lrp) /\
  in_int32 (models.MemoryMb lrp) /\
  in_int32 (models.DiskMb lrp) /\
  (in_int32 (cc_messages.NumInstances req) ->
   models.Instances lrp = cc_messages.NumInstances req) /\
  (in_int32 (cc_messages.MemoryMB req) ->
   models.MemoryMb lrp = cc_messages.MemoryMB req) /\
  (in_int32 (cc_messages.DiskMB req) ->
   models.DiskMb lrp = cc_messages.DiskMB req).
Proof.
  intros HB. apply Build_record in HB.
  destruct HB as (lifecyclePath & rootFSPath & md & user & ports & port0
                  & routes & actions & routes' & ports' & HB).
  destruct HB as (_ & _ & _ & _ & _ & _ & _ & _ & _ & _ & ->).
  cbv zeta. cbn [models.Instances models.MemoryMb models.DiskMb].
  unfold int32.
  repeat split; try (intros [Hlo Hhi]); try (rewrite Z.mod_small by lia); lia
    || (pose proof (Z.mod_pos_bound (cc_messages.NumInstances req + 2 ^ 31) (2 ^ 32) ltac:(lia));
        pose proof (Z.mod_pos_bound (cc_messages.MemoryMB req + 2 ^ 31) (2 ^ 32) ltac:(lia));
        pose proof (Z.mod_pos_bound (cc_messages.DiskMB req + 2 ^ 31) (2 ^ 32) ltac:(lia));
        lia).
Qed.

Lemma convertDockerURI_panics dockerURI :
  convertDockerURI dockerURI = Panic -> dockerURI = DockerIndexServer.
Proof.
  unfold convertDockerURI, dockerURL.
  destruct (strings.Contains dockerURI "://"); [discriminate|].
  destruct (parseDockerRepoUrl dockerURI) as [[[i r] t]|e|] eqn:Hparse;
    [discriminate..|].
  intros _. apply parseDockerRepoUrl_panics_iff. exact Hparse.
Qed.

Lemma extractExposedPorts_never_panics md : extractExposedPorts md <> Panic.
Proof.
  unfold extractExposedPorts. cbv zeta.
  destruct (fold_left _ _ _) as [exposedPort ports].
  destruct (Nat.eqb (length ports) 0); discriminate.
Qed.

(** Takes a hypothesis [m k = (Panic, k')] on a chain of binds apart:
    one goal per call that may have panicked. *)
Ltac build_panic :=
  repeat match goal with
  | E : mbind _ _ _ = (Panic, _) |- _ =>
      first [ apply bind_lift_Panic in E as [E | (? & ? & E)]
            | apply bind_Panic in E as [E | (? & ? & ? & E)] ]
  | E : (?m ?k).1 = Panic |- _ =>
      let o := fresh "o" in let k1 := fresh "k" in let E' := fresh "E" in
      destruct (m k) as [o k1] eqn:E'; cbn [fst] in E; subst o
  end.

(** X17. As long as no collaborator panics, [Build] panics on exactly the
    requests that pass the source checks, find the lifecycle and name
    the image "docker.io": in particular the read of the first extracted
    port is always in range. *)
Theorem Build_panics_iff :
  (forall blob, NewDockerExecutionMetadata blob <> Panic) ->
  (forall routingInfo ports, CCRouteInfoToRoutes routingInfo ports <> Panic) ->
  (forall bits k, (NewKeyPair bits k).1 <> Panic) ->
  (forall route, json_Marshal route <> Panic) ->
  forall b (req : Request) k,
    (Build b req k).1 = Panic <->
    cc_messages.DockerImageUrl req = DockerIndexServer /\
    cc_messages.DropletUri req = "" /\
    is_Some (Lifecycles (config b) !! "docker").
Proof.
  intros Hmeta Hroutes Hkeys Hjson b req k. split; cycle 1.
  { intros (Himg & Hdrop & [lifecyclePath Hlife]).
    unfold Build. cbv zeta. rewrite Himg, Hdrop, Hlife. reflexivity. }
  destruct (Build b req k) as [o k'] eqn:HB. cbn [fst]. intros ->.
  revert HB. unfold Build. cbv zeta.
  destruct (String.eqb (cc_messages.DockerImageUrl req) ""); [discriminate|].
  destruct (String.eqb_spec (cc_messages.DropletUri req) "") as [Hdrop|_];
    [|discriminate].
  cbn [negb andb].
  destruct (Lifecycles (config b) !! "docker") as [lifecyclePath|] eqn:Hlife;
    [|discriminate].
  intros HB.
  destruct (cc_messages.AllowSSH req); build_panic;
    repeat match goal with
    | E : convertDockerURI _ = Panic |- _ =>
        apply convertDockerURI_panics in E; eauto
    | E : extractExposedPorts _ = Panic |- _ =>
        destruct (extractExposedPorts_never_panics _ E)
    | E : extractUser ?md = Panic |- _ =>
        destruct (extractUser_returns md) as [? E']; rewrite E' in E;
        discriminate E
    | E : extractExposedPorts _ = Return ?ports, E' : index ?ports 0 = Panic |- _ =>
        destruct (extractExposedPorts_nonempty _ _ E) as (? & ? & ->);
        discriminate E'
    | E : NewDockerExecutionMetadata _ = Panic |- _ => destruct (Hmeta _ E)
    | E : CCRouteInfoToRoutes _ _ = Panic |- _ => destruct (Hroutes _ _ E)
    | E : json_Marshal _ = Panic |- _ => destruct (Hjson _ E)
    | E : NewKeyPair ?bits ?k = (Panic, _) |- _ =>
        destruct (Hkeys bits k); rewrite E; reflexivity
    | x : (_ * _ * _)%type |- _ => destruct x as [[? ?] ?]
    end;
    try discriminate.
Qed.

(** Runs [Build] one call further, on the equation of that call. *)
Ltac build_step E := rewrite E; cbv beta iota.

(** X18. A metadata blob that does not decode makes [Build] fail with the
    decoder's own error, and the key factory is not called. *)
Theorem Build_surfaces_decode_error b (req : Request) k lifecyclePath rootFSPath e :
  cc_messages.DockerImageUrl req <> "" ->
  cc_messages.DropletUri req = "" ->
  Lifecycles (config b) !! "docker" = Some lifecyclePath ->
  convertDockerURI (cc_messages.DockerImageUrl req) = Return rootFSPath ->
  NewDockerExecutionMetadata (cc_messages.ExecutionMetadata req) = Fail e ->
  Build b req k = (Fail e, k).
Proof.
  intros Himg%String.eqb_neq Hdrop Hlife Huri Hmd. unfold Build. cbv zeta.
  rewrite Himg, Hdrop, Hlife. cbn [String.eqb negb andb].
  unfold mbind, builder_bind, lift.
  build_step Huri. build_step Hmd. reflexivity.
Qed.

(** X19. Metadata that declares ports, none of them tcp, makes [Build] fail
    with the no-tcp-ports error. *)
Theorem Build_fails_without_tcp_port b (req : Request) k lifecyclePath rootFSPath md :
  cc_messages.DockerImageUrl req <> "" ->
  cc_messages.DropletUri req = "" ->
  Lifecycles (config b) !! "docker" = Some lifecyclePath ->
  convertDockerURI (cc_messages.DockerImageUrl req) = Return rootFSPath ->
  NewDockerExecutionMetadata (cc_messages.ExecutionMetadata req) = Return md ->
  ExposedPorts md <> [] ->
  Forall (fun port => Protocol port <> "tcp") (ExposedPorts md) ->
  Build b req k
  = (Fail (errors_New "No tcp ports found in image metadata"), k).
Proof.
  intros Himg%String.eqb_neq Hdrop Hlife Huri Hmd Hdecl Hudp.
  assert (Hports : extractExposedPorts md
                   = Fail (errors_New "No tcp ports found in image metadata")).
  { unfold extractExposedPorts. cbv zeta.
    destruct (ExposedPorts md) as [|port rest] eqn:Hp; [done|].
    change (Nat.eqb (length (port :: rest)) 0) with false. cbv iota.
    set (loop := fold_left _ _ _).
    assert (Hloop : snd loop = []).
    { subst loop. rewrite (collect_tcp_ports (port :: rest) DefaultPort []).
      cbn [app]. clear Hp Hdecl.
      induction Hudp as [|q qs Hq _ IH]; [reflexivity|].
      simpl. apply String.eqb_neq in Hq. rewrite Hq. exact IH. }
    destruct loop as [exposedPort ports]. cbn [snd] in Hloop. subst ports.
    reflexivity. }
  destruct (extractUser_returns md) as [user Huser].
  unfold Build. cbv zeta.
  rewrite Himg, Hdrop, Hlife. cbn [String.eqb negb andb].
  unfold mbind, builder_bind, lift.
  build_step Huri. build_step Hmd. build_step Huser. build_step Hports.
  reflexivity.
Qed.

(** X20. With the secure-shell flag, a key factory that fails makes [Build]
    fail with the factory's error, for the host's pair and for the
    user's pair, and the factory stays as the failed call left it. *)
Theorem Build_surfaces_key_errors b (req : Request) k
    lifecyclePath rootFSPath md ports routes e :
  cc_messages.DockerImageUrl req <> "" ->
  cc_messages.DropletUri req = "" ->
  Lifecycles (config b) !! "docker" = Some lifecyclePath ->
  convertDockerURI (cc_messages.DockerImageUrl req) = Return rootFSPath ->
  NewDockerExecutionMetadata (cc_messages.ExecutionMetadata req) = Return md ->
  extractExposedPorts md = Return ports ->
  CCRouteInfoToRoutes (cc_messages.RoutingInfo req) ports = Return routes ->
  cc_messages.AllowSSH req = true ->
  (forall k1, NewKeyPair 1024 k = (Fail e, k1) -> Build b req k = (Fail e, k1)) /\
  (forall hostKeyPair k1 k2,
     NewKeyPair 1024 k = (Return hostKeyPair, k1) ->
     NewKeyPair 1024 k1 = (Fail e, k2) ->
     Build b req k = (Fail e, k2)).
Proof.
  intros Himg%String.eqb_neq Hdrop Hlife Huri Hmd Hports Hroutes Hssh.
  destruct (extractUser_returns md) as [user Huser].
  destruct (extractExposedPorts_nonempty _ _ Hports) as (p & rest & ->).
  unfold Build. cbv zeta.
  rewrite Himg, Hdrop, Hlife, Hssh. cbn [String.eqb negb andb].
  unfold mbind, builder_bind, lift.
  build_step Huri. build_step Hmd. build_step Huser. build_step Hports.
  cbn [index lookup list_lookup]. build_step Hroutes.
  split.
  - intros k1 Hk. build_step Hk. reflexivity.
  - intros hostKeyPair k1 k2 Hk1 Hk2.
    build_step Hk1. build_step Hk2. reflexivity.
Qed.

End BuildFields.

(* ------------------------------------------------------------------ *)
(** ** The further properties on the sample platform *)

Section SampleRuns.

#[local] Existing Instance sample_platform.

Lemma Build_unknown_lifecycle_witness :
  Build (NewDockerRecipeBuilder {| Lifecycles := ∅; FileServerURL := "" |})
    plain_request 0
  = (Fail ErrNoLifecycleDefined, 0).
Proof.
  apply (Build_unknown_lifecycle (H := sample_platform));
    [discriminate | reflexivity | reflexivity].
Defined.

Lemma Build_refuses_scheme_witness :
  Build sample_builder
    (sample_request "docker://user/repo" "" false "port" "{}") 0
  = (Fail (errors_New ("docker URI [" +:+ "docker://user/repo"
                       +:+ "] should not contain scheme")), 0).
Proof.
  apply (Build_refuses_scheme (H := sample_platform) sample_builder
           (sample_request "docker://user/repo" "" false "port" "{}") 0
           "docker_lifecycle/docker_app_lifecycle.tgz"); reflexivity.
Defined.

Lemma Build_without_ssh_keeps_key_factory_witness :
  (Build sample_builder plain_request 7).2 = 7.
Proof.
  apply (Build_without_ssh_keeps_key_factory (H := sample_platform)).
  reflexivity.
Defined.

Lemma Build_ports_are_extracted_witness :
  exists lrp k',
    Build sample_builder ssh_request 0 = (Return lrp, k') /\
    exists p rest,
      ExtractExposedPorts sample_builder ssh_request = Return (p :: rest) /\
      models.Ports lrp =
        (if cc_messages.AllowSSH ssh_request
         then (p :: rest) ++ [DefaultSSHPort] else p :: rest).
Proof.
  eexists _, _. split; [vm_compute; reflexivity|].
  apply (Build_ports_are_extracted (H := sample_platform) sample_builder
           ssh_request 0 _ 2).
  vm_compute. reflexivity.
Defined.

Lemma Build_setup_witness :
  exists lrp k',
    Build sample_builder plain_request 0 = (Return lrp, k') /\
    exists lifecyclePath md user,
      Lifecycles (config sample_builder) !! "docker" = Some lifecyclePath /\
      NewDockerExecutionMetadata (cc_messages.ExecutionMetadata plain_request)
      = Return md /\
      user <> EmptyString /\
      (User md <> EmptyString -> user = User md) /\
      (User md = EmptyString -> user = "root") /\
      models.Setup lrp =
        Some (models.SerialAction
                [models.DownloadAction
                   (lifecycleDownloadURL lifecyclePath
                      (FileServerURL (config sample_builder)))
                   "/tmp/lifecycle" "docker-lifecycle" user]).
Proof.
  eexists _, _. split; [vm_compute; reflexivity|].
  apply (Build_setup (H := sample_platform) sample_builder plain_request 0 _ 0).
  vm_compute. reflexivity.
Defined.

Lemma Build_rootfs_witness :
  exists lrp k',
    Build sample_builder plain_request 0 = (Return lrp, k') /\
    exists indexName remoteName tag,
      strings.Contains (cc_messages.DockerImageUrl plain_request) "://" = false /\
      cc_messages.DockerImageUrl plain_request <> DockerIndexServer /\
      parseDockerRepoUrl (cc_messages.DockerImageUrl plain_request)
      = Return (indexName, remoteName, tag) /\
      models.RootFs lrp =
        URL_String {| Scheme := "docker";
                      Path := indexName +:+ "/" +:+ remoteName;
                      Fragment := tag |}.
Proof.
  eexists _, _. split; [vm_compute; reflexivity|].
  apply (Build_rootfs (H := sample_platform) sample_builder plain_request 0 _ 0).
  vm_compute. reflexivity.
Defined.

Lemma Build_run_actions_witness :
  exists lrp k',
    Build sample_builder ssh_request 0 = (Return lrp, k') /\
    exists md user port0 rest actions,
      NewDockerExecutionMetadata (cc_messages.ExecutionMetadata ssh_request)
      = Return md /\
      extractUser md = Return user /\
      extractExposedPorts md = Return (port0 :: rest) /\
      models.Action lrp = Some (models.CodependentAction actions) /\
      Forall (fun action =>
                exists path args logSource,
                  action =
                    models.RunAction user path args
                      (createLrpEnv (cc_messages.Environment ssh_request) port0)
                      logSource
                      (Some {| models.Nofile :=
                                 Some (if cc_messages.FileDescriptors ssh_request =? 0
                                       then DefaultFileDescriptorLimit
                                       else cc_messages.FileDescriptors ssh_request) |}))
             actions.
Proof.
  eexists _, _. split; [vm_compute; reflexivity|].
  apply (Build_run_actions (H := sample_platform) sample_builder ssh_request 0 _ 2).
  vm_compute. reflexivity.
Defined.

Lemma Build_ssh_keys_witness :
  exists lrp k',
    Build sample_builder ssh_request 0 = (Return lrp, k') /\
    exists hostKeyPair k1 userKeyPair payload launcher user env logSource limits,
      NewKeyPair 1024 0 = (Return hostKeyPair, k1) /\
      NewKeyPair 1024 k1 = (Return userKeyPair, k') /\
      json_Marshal
        {| ssh_routes.ContainerPort := 2222;
           ssh_routes.PrivateKey := PEMEncodedPrivateKey userKeyPair;
           ssh_routes.HostFingerprint := Fingerprint hostKeyPair |}
      = Return payload /\
      models.Routes lrp !! DIEGO_SSH = Some payload /\
      models.Action lrp =
        Some (models.CodependentAction
                [launcher;
                 models.RunAction user "/tmp/lifecycle/diego-sshd"
                   ["-address=" +:+ ("0.0.0.0:" +:+ fmt_d DefaultSSHPort);
                    "-hostKey=" +:+ PEMEncodedPrivateKey hostKeyPair;
                    "-authorizedKey=" +:+ AuthorizedKey userKeyPair;
                    "-inheritDaemonEnv";
                    "-logLevel=fatal"]
                   env logSource limits]).
Proof.
  eexists _, _. split; [vm_compute; reflexivity|].
  apply (Build_ssh_keys (H := sample_platform) sample_builder ssh_request 0 _ 2).
  - reflexivity.
  - vm_compute. reflexivity.
Defined.

Lemma Build_quotas_witness :
  exists lrp k',
    Build sample_builder plain_request 0 = (Return lrp, k') /\
    let in_int32 z := - 2 ^ 31 <= z < 2 ^ 31 in
    in_int32 (models.Instances lrp) /\
    in_int32 (models.MemoryMb lrp) /\
    in_int32 (models.DiskMb lrp) /\
    (in_int32 (cc_messages.NumInstances plain_request) ->
     models.Instances lrp = cc_messages.NumInstances plain_request) /\
    (in_int32 (cc_messages.MemoryMB plain_request) ->
     models.MemoryMb lrp = cc_messages.MemoryMB plain_request) /\
    (in_int32 (cc_messages.DiskMB plain_request) ->
     models.DiskMb lrp = cc_messages.DiskMB plain_request).
Proof.
  eexists _, _. split; [vm_compute; reflexivity|].
  apply (Build_quotas (H := sample_platform) sample_builder plain_request 0 _ 0).
  vm_compute. reflexivity.
Defined.

Lemma Build_panics_iff_witness :
  (Build sample_builder (sample_request "docker.io" "" false "port" "{}") 0).1
  = Panic <->
  cc_messages.DockerImageUrl (sample_request "docker.io" "" false "port" "{}")
  = DockerIndexServer /\
  cc_messages.DropletUri (sample_request "docker.io" "" false "port" "{}") = "" /\
  is_Some (Lifecycles (config sample_builder) !! "docker").
Proof.
  apply (Build_panics_iff (H := sample_platform)).
  - intros blob. cbn [NewDockerExecutionMetadata sample_platform].
    unfold sample_metadata. repeat destruct (String.eqb _ _); discriminate.
  - discriminate.
  - discriminate.
  - discriminate.
Defined.

Lemma Build_surfaces_decode_error_witness :
  Build sample_builder
    (sample_request "user/repo:tag" "" true "port" "not json") 0
  = (Fail (errors_New "invalid character"), 0).
Proof.
  apply (Build_surfaces_decode_error (H := sample_platform) sample_builder
           (sample_request "user/repo:tag" "" true "port" "not json") 0
           "docker_lifecycle/docker_app_lifecycle.tgz"
           "docker:///user/repo#tag");
    [discriminate | reflexivity..].
Defined.

Lemma Build_fails_without_tcp_port_witness :
  Build sample_builder (sample_request "user/repo:tag" "" true "port" "udp") 0
  = (Fail (errors_New "No tcp ports found in image metadata"), 0).
Proof.
  apply (Build_fails_without_tcp_port (H := sample_platform) sample_builder
           (sample_request "user/repo:tag" "" true "port" "udp") 0
           "docker_lifecycle/docker_app_lifecycle.tgz"
           "docker:///user/repo#tag"
           {| User := ""; ExposedPorts := [ {| Port := 53; Protocol := "udp" |} ] |});
    [discriminate | reflexivity | reflexivity | reflexivity | reflexivity
    | discriminate | repeat constructor; discriminate].
Defined.

End SampleRuns.

Lemma Build_surfaces_key_errors_witness :
  Build (H := one_key_platform) sample_builder ssh_request 1
  = (Fail (errors_New "key generation failed"), 2) /\
  Build (H := one_key_platform) sample_builder ssh_request 0
  = (Fail (errors_New "key generation failed"), 2).
Proof.
  split.
  - apply (Build_surfaces_key_errors (H := one_key_platform) sample_builder
             ssh_request 1
             "docker_lifecycle/docker_app_lifecycle.tgz"
             "docker:///user/repo#tag"
             {| User := "web";
                ExposedPorts := [ {| Port := 8081; Protocol := "tcp" |};
                                  {| Port := 53; Protocol := "udp" |};
                                  {| Port := 8082; Protocol := "tcp" |} ] |}
             [8081; 8082] ∅ (errors_New "key generation failed"));
      (discriminate || reflexivity).
  - apply (Build_surfaces_key_errors (H := one_key_platform) sample_builder
             ssh_request 0
             "docker_lifecycle/docker_app_lifecycle.tgz"
             "docker:///user/repo#tag"
             {| User := "web";
                ExposedPorts := [ {| Port := 8081; Protocol := "tcp" |};
                                  {| Port := 53; Protocol := "udp" |};
                                  {| Port := 8082; Protocol := "tcp" |} ] |}
             [8081; 8082] ∅ (errors_New "key generation failed"))
      with (hostKeyPair := {| PEMEncodedPrivateKey := "pem-0";
                               AuthorizedKey := "ssh-rsa-0";
                               Fingerprint := "fp-0" |}) (k1 := 1);
      (discriminate || reflexivity).
Defined.
